(** * Astrology API: a shallow embedding of [main.py] and its properties

    The service has three request handlers with logic of their own:
    [detect_sign] (POST /api/detect-sign), [get_horoscope]
    (POST /api/horoscope) and [list_readings] (GET /api/readings).
    They are embedded below as Rocq functions over the Python values they
    manipulate; the document store ([database.py]) is an interface the
    handlers are generic in. *)

From Stdlib Require Import ZArith NArith Lia ZifyBool List.
From Stdlib Require Ascii String.
From stdpp Require Import base option list strings pretty countable gmap.

Local Open Scope Z_scope.

(** ** Python values *)

(** A [str] is a sequence of Unicode code points. *)
Abbreviation str := (list N).

(** The code points of an ASCII literal of the source. *)
Definition py (s : String.string) : str :=
  map Ascii.N_of_ascii (String.list_ascii_of_string s).
Arguments py s%_string.

(** Exceptions, by class.  [HTTPException] is FastAPI's; like every class
    here it derives from Python's [Exception], so an [except Exception]
    clause catches all three. *)
Inductive Exception : Type :=
  | ValueError (msg : str)
  | HTTPException (status_code : Z) (detail : str)
  | OtherError (cls msg : str).

(** What running a piece of Python code ends in. *)
Inductive outcome (A : Type) : Type :=
  | Return (a : A)
  | Raise (e : Exception).
Arguments Return {A} a.
Arguments Raise {A} e.

#[export] Instance outcome_ret : MRet outcome := fun _ a => Return a.
#[export] Instance outcome_bind : MBind outcome := fun _ _ k m =>
  match m with
  | Return a => k a
  | Raise e => Raise e
  end.
#[export] Instance outcome_fmap : FMap outcome := fun _ _ f m =>
  match m with
  | Return a => Return (f a)
  | Raise e => Raise e
  end.

(** The status line FastAPI answers with: 200 for a returned value, the
    exception's own code for an [HTTPException], 500 for anything else
    that escapes the handler. *)
Definition status_code_of {A} (r : outcome A) : Z :=
  match r with
  | Return _ => 200
  | Raise (HTTPException code _) => code
  | Raise _ => 500
  end.

(** ** [datetime.date] *)

Record date : Type := Date { year : Z; month : Z; day : Z }.

Definition is_leap (y : Z) : bool :=
  (y mod 4 =? 0) && (negb (y mod 100 =? 0) || (y mod 400 =? 0)).

Definition days_in_month (y m : Z) : Z :=
  if m =? 2 then (if is_leap y then 29 else 28)
  else if (m =? 4) || (m =? 6) || (m =? 9) || (m =? 11) then 30
  else 31.

(** The checks of the [date(year, month, day)] constructor. *)
Definition valid_date (y m d : Z) : bool :=
  (1 <=? y) && (y <=? 9999) && (1 <=? m) && (m <=? 12) &&
  (1 <=? d) && (d <=? days_in_month y m).

(** [date(y, m, d)]: raises [ValueError] outside the calendar. *)
Definition mk_date (y m d : Z) : outcome date :=
  if negb ((1 <=? y) && (y <=? 9999)) then
    Raise (ValueError (py "year is out of range"))
  else if negb ((1 <=? m) && (m <=? 12)) then
    Raise (ValueError (py "month must be in 1..12"))
  else if negb ((1 <=? d) && (d <=? days_in_month y m)) then
    Raise (ValueError (py "day is out of range for month"))
  else Return (Date y m d).

(** [a <= b] on dates: the order of the calendar. *)
Definition date_le (a b : date) : bool :=
  (year a <? year b) ||
  ((year a =? year b) &&
   ((month a <? month b) ||
    ((month a =? month b) && (day a <=? day b)))).

(** ** The zodiac table (main.py, lines 58-73) *)

Definition ZODIAC_DATES : list (str * (date * date)) :=
  [ (py "capricorn",   (Date 2000 12 22, Date 2001 1 19));
    (py "aquarius",    (Date 2001 1 20,  Date 2001 2 18));
    (py "pisces",      (Date 2001 2 19,  Date 2001 3 20));
    (py "aries",       (Date 2001 3 21,  Date 2001 4 19));
    (py "taurus",      (Date 2001 4 20,  Date 2001 5 20));
    (py "gemini",      (Date 2001 5 21,  Date 2001 6 20));
    (py "cancer",      (Date 2001 6 21,  Date 2001 7 22));
    (py "leo",         (Date 2001 7 23,  Date 2001 8 22));
    (py "virgo",       (Date 2001 8 23,  Date 2001 9 22));
    (py "libra",       (Date 2001 9 23,  Date 2001 10 22));
    (py "scorpio",     (Date 2001 10 23, Date 2001 11 21));
    (py "sagittarius", (Date 2001 11 22, Date 2001 12 21)) ].

(** [SIGNS = [s for s, _ in ZODIAC_DATES]] *)
Definition SIGNS : list str := map fst ZODIAC_DATES.

(** ** POST /api/detect-sign (main.py, lines 75-94) *)

Record BirthInfo : Type := {
  name : option str;
  birthdate : date
}.

(** The body the handler answers with: [{"sign": sign}]. *)
Record SignResponse : Type := { found_sign : str }.

(** The [for] loop over the table: [Some] sign when an entry matches and
    the handler returns from inside the loop, [None] when the loop runs
    to its end. *)
Fixpoint detect_sign_loop (ref : date) (table : list (str * (date * date)))
  : outcome (option str) :=
  match table with
  | [] => Return None
  | (sign, (start_ref, end_ref)) :: rest =>
      start ← mk_date 2001 (month start_ref) (day start_ref);
      end_ ← mk_date 2001 (month end_ref) (day end_ref);
      if date_le start ref && date_le ref end_
      then Return (Some sign)
      else detect_sign_loop ref rest
  end.

Definition detect_sign (info : BirthInfo) : outcome SignResponse :=
  let d := birthdate info in
  ref ← mk_date 2001 (month d) (day d);
  hit ← detect_sign_loop ref ZODIAC_DATES;
  match hit with
  | Some sign => Return {| found_sign := sign |}
  | None =>
      lo ← mk_date 2001 12 22;
      hi ← mk_date 2001 12 31;
      if date_le lo ref && date_le ref hi
      then Return {| found_sign := py "capricorn" |}
      else Raise (HTTPException 400 (py "Invalid date"))
  end.

(** ** [str.lower] and [str.title]

    Both walk the string code point by code point (CPython's [do_lower]
    and [do_title]).  On ASCII the case mappings are written out.  For
    the other code points they are read from the Unicode character
    database of the interpreter, which is data of the runtime and not of
    this program: it is an interface here, and every statement below
    holds whatever it contains.  Lower-casing sees the whole string and
    the position, as the final-sigma rule of CPython does. *)

Class UnicodeData : Type := {
  ucd_lower : str → nat → N → str;
  ucd_title : N → str;
  ucd_cased : N → bool
}.

Definition is_ascii (c : N) : bool := (c <? 128)%N.
Definition ascii_isupper (c : N) : bool := (65 <=? c)%N && (c <=? 90)%N.
Definition ascii_islower (c : N) : bool := (97 <=? c)%N && (c <=? 122)%N.
Definition ascii_lower (c : N) : N := if ascii_isupper c then (c + 32)%N else c.
Definition ascii_upper (c : N) : N := if ascii_islower c then (c - 32)%N else c.

Section Strings.
Context `{UCD : UnicodeData}.

Definition lower_char (s : str) (i : nat) (c : N) : str :=
  if is_ascii c then [ascii_lower c] else ucd_lower s i c.

Definition title_char (c : N) : str :=
  if is_ascii c then [ascii_upper c] else ucd_title c.

Definition is_cased (c : N) : bool :=
  if is_ascii c then ascii_isupper c || ascii_islower c else ucd_cased c.

(** [s.lower()] *)
Definition lower (s : str) : str := concat (imap (lower_char s) s).

(** The loop of [s.title()], at position [i] with [rest] still to do. *)
Fixpoint title_from (s : str) (i : nat) (previous_is_cased : bool) (rest : str)
  : str :=
  match rest with
  | [] => []
  | c :: rest' =>
      (if previous_is_cased then lower_char s i c else title_char c)
      ++ title_from s (S i) (is_cased c) rest'
  end.

(** [s.title()] *)
Definition title (s : str) : str := title_from s 0 false s.
End Strings.

(** A database that leaves every non-ASCII code point as it is. *)
Definition ucd_unchanged : UnicodeData :=
  {| ucd_lower := fun _ _ c => [c];
     ucd_title := fun c => [c];
     ucd_cased := fun _ => false |}.

(** ** [datetime.utcnow().strftime("%Y-%m-%d")] *)

Record datetime : Type := {
  dt_year : Z; dt_month : Z; dt_day : Z;
  dt_hour : Z; dt_minute : Z; dt_second : Z; dt_microsecond : Z
}.

Definition digit (n : Z) : N := (48 + Z.to_N (n mod 10))%N.

(** [%m] and [%d]: two digits, zero-padded.  [%Y]: the year in decimal
    with no padding, as the C library under the interpreter prints it; a
    [datetime] has a year in 1..9999, so there are one to four digits. *)
Definition two_digits (n : Z) : str := [digit (n / 10); digit n].

Definition year_digits (y : Z) : str :=
  if y <? 10 then [digit y]
  else if y <? 100 then [digit (y / 10); digit y]
  else if y <? 1000 then [digit (y / 100); digit (y / 10); digit y]
  else [digit (y / 1000); digit (y / 100); digit (y / 10); digit y].

Definition strftime_Ymd (t : datetime) : str :=
  year_digits (dt_year t) ++ py "-" ++ two_digits (dt_month t)
  ++ py "-" ++ two_digits (dt_day t).

(** ** Documents and the store *)

(** The values documents of this service hold. *)
Inductive value : Type :=
  | VNone
  | VStr (s : str)
  | VObjectId (hex : str).

#[export] Instance value_eq_dec : EqDecision value.
Proof. solve_decision. Defined.

(** [str(v)] *)
Definition py_str (v : value) : str :=
  match v with
  | VNone => py "None"
  | VStr s => s
  | VObjectId hex => hex
  end.

(** A Python [dict] with string keys. *)
Abbreviation dict := (gmap str value).

(** Modelled from the spec: the [Reading] model of [schemas.py], which is
    not part of the sources at hand.  The spec (section 3) gives it the
    fields sign, date (an ISO calendar date string) and content. *)
Record Reading : Type := {
  reading_sign : str;
  reading_date : str;
  reading_content : str
}.

(** The two functions the handlers import from [database.py], as the
    spec (section 1) gives them: [create_document(collection, object) ->
    id] and [get_documents(collection, filter, limit) -> list of
    objects].  Either may raise; both may change the store, whose state
    [S] is threaded through. *)
Class Database (S : Type) : Type := {
  create_document : str → Reading → S → (Exception + str) * S;
  get_documents : str → dict → Z → S → (Exception + list dict) * S
}.

(** ** POST /api/horoscope (main.py, lines 96-117) *)

Record HoroscopeRequest : Type := {
  req_sign : str;
  req_scope : str
}.

(** [{"date": .., "sign": .., "scope": .., "content": .., "id": ..}] *)
Record HoroscopeResponse : Type := {
  resp_date : str;
  resp_sign : str;
  resp_scope : str;
  resp_content : str;
  resp_id : option str
}.

(** [{"items": docs}] *)
Record ReadingsResponse : Type := { items : list dict }.

Definition body_text : str :=
  py "Energy favors thoughtful planning. Stay open to small surprises; "
  ++ py "a conversation could point you toward a useful opportunity.".

Section Handlers.
Context `{UCD : UnicodeData} {S : Type} `{DB : Database S}.

(** The f-string of lines 107-111. *)
Definition content (sign scope today : str) : str :=
  title sign ++ py " " ++ title scope ++ py " Horoscope for "
  ++ today ++ py ": " ++ body_text.

Definition get_horoscope (utcnow : datetime) (req : HoroscopeRequest) (st : S)
  : outcome HoroscopeResponse * S :=
  let sign := lower (req_sign req) in
  if negb (bool_decide (sign ∈ SIGNS)) then
    (Raise (HTTPException 400 (py "Unknown sign")), st)
  else
    let today := strftime_Ymd utcnow in
    let content := content sign (req_scope req) today in
    let reading :=
      {| reading_sign := sign; reading_date := today;
         reading_content := content |} in
    let '(saved, st') := create_document (py "reading") reading st in
    let reading_id :=
      match saved with
      | inr new_id => Some new_id
      | inl _ => None
      end in
    (Return {| resp_date := today; resp_sign := sign;
               resp_scope := req_scope req; resp_content := content;
               resp_id := reading_id |}, st').

(** ** GET /api/readings (main.py, lines 119-130) *)

(** [filt = {"sign": sign} if sign else {}]: [None] and the empty
    string are both falsy. *)
Definition filt (sign : option str) : dict :=
  match sign with
  | Some (c :: s) => {[ py "sign" := VStr (c :: s) ]}
  | _ => ∅
  end.

(** The body of the loop: [if "_id" in d: d["id"] = str(d.pop("_id"))]. *)
Definition rename_id (d : dict) : dict :=
  match d !! py "_id" with
  | Some v => <[ py "id" := VStr (py_str v) ]> (delete (py "_id") d)
  | None => d
  end.

Definition list_readings (sign : option str) (st : S)
  : outcome ReadingsResponse * S :=
  let '(found, st') := get_documents (py "reading") (filt sign) 50 st in
  match found with
  | inr docs => (Return {| items := rename_id <$> docs |}, st')
  | inl _ => (Return {| items := [] |}, st')
  end.
End Handlers.

(** ** An in-memory store *)

(** Modelled from the spec: the document store behind [database.py],
    which is not part of the sources at hand.  The spec (sections 1, 3
    and 4.3) describes it as a document persistence capability:
    [create_document] stores the object in the named collection and
    returns the identity the store assigns to it, [get_documents] returns
    the objects of the collection that match the filter, at most [limit]
    of them, and any call fails when the store is unreachable. *)
Record MemStore : Type := {
  connected : bool;
  next_id : N;
  collections : gmap str (list dict)
}.

Definition document_of (r : Reading) : dict :=
  {[ py "sign" := VStr (reading_sign r);
     py "date" := VStr (reading_date r);
     py "content" := VStr (reading_content r) ]}.

(** A document matches a filter when it has every field of the filter,
    with the same value. *)
Definition matches (flt d : dict) : bool :=
  bool_decide (map_Forall (λ k v, d !! k = Some v) flt).

Definition unreachable : Exception :=
  OtherError (py "Exception") (py "Database not available").

Definition mem_create_document (collection : str) (r : Reading) (st : MemStore)
  : (Exception + str) * MemStore :=
  if connected st then
    let new_id := py (pretty (next_id st)) in
    let doc := <[ py "_id" := VObjectId new_id ]> (document_of r) in
    (inr new_id,
     {| connected := true;
        next_id := N.succ (next_id st);
        collections :=
          <[ collection := default [] (collections st !! collection) ++ [doc] ]>
            (collections st) |})
  else (inl unreachable, st).

Definition mem_get_documents (collection : str) (flt : dict) (limit : Z)
  (st : MemStore) : (Exception + list dict) * MemStore :=
  if connected st then
    (inr (take (Z.to_nat limit)
            (filter (λ d, matches flt d = true)
               (default [] (collections st !! collection)))), st)
  else (inl unreachable, st).

#[export] Instance mem_database : Database MemStore :=
  {| create_document := mem_create_document;
     get_documents := mem_get_documents |}.

Definition empty_store : MemStore :=
  {| connected := true; next_id := 0; collections := ∅ |}.

Definition down_store : MemStore :=
  {| connected := false; next_id := 0; collections := ∅ |}.

(** ** GET /test (main.py, lines 24-55) *)

(** The module-level [db] of [database.py], as far as [test_database]
    looks at it: it is [None] or an object, which may or may not have a
    [name] attribute and has a [list_collection_names()] to call.
    Reading the attribute and making the call either give a value or
    raise; an exception is kept as its [str(e)], the one thing the handler
    reads of it. *)
Record Handle : Type := {
  handle_name : option (str + str);
  handle_list_collection_names : str + list str
}.

(** The process environment behind [os.getenv]. *)
Definition getenv (env : gmap str str) (key : str) : option str := env !! key.

(** Truth value of what [os.getenv] returns: [None] and the empty string
    are falsy. *)
Definition truthy (v : option str) : bool :=
  match v with
  | Some (_ :: _) => true
  | _ => false
  end.

(** The [response] dict of the handler; [database_url] and
    [database_name] start as [None]. *)
Record TestResponse : Type := {
  t_backend : str;
  t_database : str;
  t_database_url : option str;
  t_database_name : option str;
  t_connection_status : str;
  t_collections : list str
}.

(** [response[key] = v], key by key. *)
Definition set_database (v : str) (r : TestResponse) : TestResponse :=
  {| t_backend := t_backend r; t_database := v;
     t_database_url := t_database_url r; t_database_name := t_database_name r;
     t_connection_status := t_connection_status r;
     t_collections := t_collections r |}.

Definition set_database_url (v : option str) (r : TestResponse) : TestResponse :=
  {| t_backend := t_backend r; t_database := t_database r;
     t_database_url := v; t_database_name := t_database_name r;
     t_connection_status := t_connection_status r;
     t_collections := t_collections r |}.

Definition set_database_name (v : option str) (r : TestResponse) : TestResponse :=
  {| t_backend := t_backend r; t_database := t_database r;
     t_database_url := t_database_url r; t_database_name := v;
     t_connection_status := t_connection_status r;
     t_collections := t_collections r |}.

Definition set_connection_status (v : str) (r : TestResponse) : TestResponse :=
  {| t_backend := t_backend r; t_database := t_database r;
     t_database_url := t_database_url r; t_database_name := t_database_name r;
     t_connection_status := v;
     t_collections := t_collections r |}.

Definition set_collections (v : list str) (r : TestResponse) : TestResponse :=
  {| t_backend := t_backend r; t_database := t_database r;
     t_database_url := t_database_url r; t_database_name := t_database_name r;
     t_connection_status := t_connection_status r;
     t_collections := v |}.

(** The three symbols of the literals: U+2705, U+274C, and U+26A0 with
    its variation selector U+FE0F. *)
Definition check_mark : str := [9989%N].
Definition cross_mark : str := [10060%N].
Definition warning_sign : str := [9888%N; 65039%N].

Definition test_database (db : option Handle) (env : gmap str str)
  : TestResponse :=
  let response :=
    {| t_backend := check_mark ++ py " Running";
       t_database := cross_mark ++ py " Not Available";
       t_database_url := None;
       t_database_name := None;
       t_connection_status := py "Not Connected";
       t_collections := [] |} in
  let response :=
    match db with
    | Some handle =>
        let response := set_database (check_mark ++ py " Available") response in
        let response :=
          set_database_url (Some (check_mark ++ py " Configured")) response in
        (* db.name if hasattr(db, 'name') else "... Connected" *)
        match match handle_name handle with
              | Some read => read
              | None => inr (check_mark ++ py " Connected")
              end with
        | inr db_name =>
            let response := set_database_name (Some db_name) response in
            let response := set_connection_status (py "Connected") response in
            match handle_list_collection_names handle with
            | inr collections =>
                let response := set_collections (take 10 collections) response in
                set_database (check_mark ++ py " Connected & Working") response
            | inl e =>
                set_database
                  (warning_sign ++ py "  Connected but Error: " ++ take 50 e)
                  response
            end
        | inl e =>
            set_database (cross_mark ++ py " Error: " ++ take 50 e) response
        end
    | None =>
        set_database (warning_sign ++ py "  Available but not initialized")
          response
    end in
  let response :=
    set_database_url
      (Some (if truthy (getenv env (py "DATABASE_URL"))
             then check_mark ++ py " Set" else cross_mark ++ py " Not Set"))
      response in
  set_database_name
    (Some (if truthy (getenv env (py "DATABASE_NAME"))
           then check_mark ++ py " Set" else cross_mark ++ py " Not Set"))
    response.

(** ** Vocabulary of the statements *)

#[export] Instance Exception_eq_dec : EqDecision Exception.
Proof. solve_decision. Defined.
#[export] Instance date_eq_dec : EqDecision date.
Proof. solve_decision. Defined.
#[export] Instance SignResponse_eq_dec : EqDecision SignResponse.
Proof. solve_decision. Defined.
#[export] Instance outcome_eq_dec `{EqDecision A} : EqDecision (outcome A).
Proof. solve_decision. Defined.

(** A request for a month and a day, in the reference year. *)
Definition born (y m d : Z) : BirthInfo :=
  {| name := None; birthdate := Date y m d |}.

(** The sign resolver as the spec words it (section 4.1): capricorn is
    the two sub-ranges Dec 22-31 and Jan 1-19, the eleven other signs are
    tested by inclusive containment of the month and day, on a calendar
    that has Feb 29. *)
Definition md_le (a b : Z * Z) : bool :=
  (a.1 <? b.1) || ((a.1 =? b.1) && (a.2 <=? b.2)).

Definition md_between (lo hi md : Z * Z) : bool := md_le lo md && md_le md hi.

Definition entry_covers (md : Z * Z) (e : str * (date * date)) : bool :=
  md_between (month e.2.1, day e.2.1) (month e.2.2, day e.2.2) md.

Definition spec_resolve (m d : Z) : option str :=
  if md_between (12, 22) (12, 31) (m, d) || md_between (1, 1) (1, 19) (m, d)
  then Some (py "capricorn")
  else fst <$> find (entry_covers (m, d)) (tail ZODIAC_DATES).

(** What [detect_sign] answers for a month and a day of the calendar. *)
Definition detect_sign_answer (m d : Z) : outcome SignResponse :=
  if (m =? 2) && (d =? 29) then
    Raise (ValueError (py "day is out of range for month"))
  else if (m =? 1) && (d <=? 19) then
    Raise (HTTPException 400 (py "Invalid date"))
  else
    match spec_resolve m d with
    | Some s => Return {| found_sign := s |}
    | None => Raise (HTTPException 400 (py "Invalid date"))
    end.

(** The day after [a], for the dates of the table. *)
Definition next_day (a : date) : date :=
  if day a <? days_in_month (year a) (month a) then
    Date (year a) (month a) (day a + 1)
  else if month a <? 12 then Date (year a) (month a + 1) 1
  else Date (year a + 1) 1 1.

(** Each interval of a table starts the day after the one before ends. *)
Fixpoint contiguous (table : list (str * (date * date))) : bool :=
  match table with
  | (_, (_, e)) :: (((_, (s, _)) :: _) as rest) =>
      bool_decide (next_day e = s) && contiguous rest
  | _ => true
  end.

(** [s] is [label] up to the case of its letters. *)
Definition case_variant (s label : str) : Prop :=
  Forall2 (λ a b, a = b ∨ a = ascii_upper b) s label.

(** [needle in hay] *)
Definition contains (needle hay : str) : Prop :=
  ∃ before after, hay = before ++ needle ++ after.

(** The invariant of a persisted [Reading] (spec, section 3). *)
Definition reading_ok (r : Reading) : Prop :=
  reading_sign r ∈ SIGNS ∧ reading_content r ≠ [].

(** The [Reading] a response of POST /api/horoscope reports. *)
Definition reading_of (resp : HoroscopeResponse) : Reading :=
  {| reading_sign := resp_sign resp;
     reading_date := resp_date resp;
     reading_content := resp_content resp |}.

(** A clock reading and a request used in the examples. *)
Definition new_year_2024 : datetime :=
  {| dt_year := 2024; dt_month := 1; dt_day := 1;
     dt_hour := 9; dt_minute := 30; dt_second := 0; dt_microsecond := 0 |}.

Definition ask (sign scope : str) : HoroscopeRequest :=
  {| req_sign := sign; req_scope := scope |}.

(** The same day, later. *)
Definition new_year_2024_evening : datetime :=
  {| dt_year := 2024; dt_month := 1; dt_day := 1;
     dt_hour := 22; dt_minute := 5; dt_second := 41; dt_microsecond := 7 |}.

(** A reading of the in-memory store in the examples, and a store that
    holds sixty of them. *)
Definition some_reading : Reading :=
  {| reading_sign := py "leo"; reading_date := py "2024-01-01";
     reading_content := py "Leo" |}.

Definition busy_store : MemStore :=
  Nat.iter 60 (λ st, (mem_create_document (py "reading") some_reading st).2)
    empty_store.

(** What happens to the in-memory store over time: requests that reach
    it, and the store going down or coming back. *)
Inductive event : Type :=
  | PostHoroscope (utcnow : datetime) (req : HoroscopeRequest)
  | GetReadings (sign : option str)
  | Connectivity (up : bool).

Definition after `{UCD : UnicodeData} (st : MemStore) (ev : event) : MemStore :=
  match ev with
  | PostHoroscope utcnow req => (get_horoscope utcnow req st).2
  | GetReadings sign => (list_readings sign st).2
  | Connectivity up =>
      {| connected := up; next_id := next_id st; collections := collections st |}
  end.

Definition stored_readings (st : MemStore) : list dict :=
  default [] (collections st !! py "reading").

(** The invariant of a [Reading], on the stored document. *)
Definition document_ok (d : dict) : Prop :=
  ∃ sign text,
    d !! py "sign" = Some (VStr sign) ∧ sign ∈ SIGNS
    ∧ d !! py "content" = Some (VStr text) ∧ text ≠ [].

(** A store with two readings, of two signs. *)
Definition other_reading : Reading :=
  {| reading_sign := py "virgo"; reading_date := py "2024-01-02";
     reading_content := py "Virgo" |}.

Definition two_readings_store : MemStore :=
  (mem_create_document (py "reading") other_reading
     (mem_create_document (py "reading") some_reading empty_store).2).2.

(** The [name] of a handle can be read: reading it does not raise. *)
Definition name_readable (handle : Handle) : Prop :=
  ∀ e, handle_name handle ≠ Some (inl e).

(** A handle in the examples: no [name], listing raises a long message. *)
Definition failing_handle : Handle :=
  {| handle_name := None;
     handle_list_collection_names :=
       inl (py "ServerSelectionTimeoutError: localhost:27017: connection refused, timeout 30s") |}.

(** A handle with twelve collections. *)
Definition full_handle : Handle :=
  {| handle_name := Some (inr (py "astro"));
     handle_list_collection_names :=
       inr (map (λ n : nat, py "c" ++ py (pretty n)) (seq 0 12)) |}.

(** Reading a string of ASCII decimal digits as a number: [None] for
    the empty string and for a string with anything else in it. *)
Definition is_decimal_digit (c : N) : bool := (48 <=? c)%N && (c <=? 57)%N.

Fixpoint number_from (acc : Z) (s : str) : option Z :=
  match s with
  | [] => Some acc
  | c :: s' =>
      if is_decimal_digit c
      then number_from (10 * acc + (Z.of_N c - 48)) s'
      else None
  end.

Definition number (s : str) : option Z :=
  match s with
  | [] => None
  | _ :: _ => number_from 0 s
  end.

(** * Properties *)

(** ** The sign resolver *)

(** Only the month and the day of the birthdate are read. *)
Lemma detect_sign_born (info : BirthInfo) :
  detect_sign info
  = detect_sign (born 2001 (month (birthdate info)) (day (birthdate info))).
Proof. reflexivity. Qed.

Lemma in_seqZ (lo len z : Z) : lo ≤ z < lo + len → In z (seqZ lo len).
Proof. intros Hz. apply list_elem_of_In, elem_of_seqZ. exact Hz. Qed.

(** A property checked on every month 1..12 and day 1..31 holds of each. *)
Lemma month_day_cases (P : Z → Z → bool) :
  forallb (λ m, forallb (P m) (seqZ 1 31)) (seqZ 1 12) = true →
  ∀ m d, 1 ≤ m ≤ 12 → 1 ≤ d ≤ 31 → P m d = true.
Proof.
  intros Hall m d Hm Hd.
  rewrite forallb_forall in Hall.
  specialize (Hall m (in_seqZ 1 12 m ltac:(lia))).
  rewrite forallb_forall in Hall.
  exact (Hall d (in_seqZ 1 31 d ltac:(lia))).
Qed.

Lemma days_in_month_le_31 (y m : Z) : days_in_month y m ≤ 31.
Proof.
  unfold days_in_month.
  repeat match goal with |- context [if ?b then _ else _] => destruct b end; lia.
Qed.

(** Every month has its longest length in a leap year. *)
Lemma days_in_month_leap (y m : Z) : days_in_month y m ≤ days_in_month 2000 m.
Proof.
  unfold days_in_month. change (is_leap 2000) with true.
  repeat match goal with |- context [if ?b then _ else _] => destruct b end; lia.
Qed.

Lemma valid_date_leap (y m d : Z) :
  valid_date y m d = true → valid_date 2000 m d = true.
Proof.
  unfold valid_date. intros Hvalid.
  repeat (apply andb_prop in Hvalid; destruct Hvalid as [Hvalid ?]).
  pose proof (days_in_month_leap y m).
  repeat (apply andb_true_intro; split); lia.
Qed.

Lemma detect_sign_answer_checked :
  forallb (λ m, forallb
     (λ d, implb (valid_date 2000 m d)
             (bool_decide (detect_sign (born 2001 m d) = detect_sign_answer m d)))
     (seqZ 1 31)) (seqZ 1 12) = true.
Proof. vm_compute. reflexivity. Qed.

(** The answer of the handler on the whole calendar: Feb 29 escapes as a
    [ValueError], Jan 1-19 falls through to the 400 branch, every other
    day gets the sign the spec's resolver gives. *)
Lemma detect_sign_calendar (info : BirthInfo) :
  valid_date (year (birthdate info)) (month (birthdate info))
    (day (birthdate info)) = true →
  detect_sign info
  = detect_sign_answer (month (birthdate info)) (day (birthdate info)).
Proof.
  intros Hvalid. rewrite detect_sign_born.
  destruct (birthdate info) as [y m d]; cbn [year month day] in *.
  pose proof (valid_date_leap _ _ _ Hvalid) as Hleap.
  unfold valid_date in Hvalid.
  repeat (apply andb_prop in Hvalid; destruct Hvalid as [Hvalid ?]).
  pose proof (days_in_month_le_31 y m).
  pose proof (month_day_cases _ detect_sign_answer_checked m d) as Hc.
  cbv beta in Hc. rewrite Hleap in Hc.
  apply (bool_decide_eq_true_1 _), Hc; lia.
Qed.

(** The table itself has no gap and no overlap: its twelve intervals
    follow one another day by day, from Dec 22, 2000 to Dec 21, 2001, and
    the day after the last is the month and day the first starts at. *)
Lemma ZODIAC_DATES_contiguous :
  contiguous ZODIAC_DATES = true
  ∧ Forall (λ e, date_le e.2.1 e.2.2 = true) ZODIAC_DATES
  ∧ (fst <$> head ZODIAC_DATES) = Some (py "capricorn")
  ∧ (snd <$> head ZODIAC_DATES) = Some (Date 2000 12 22, Date 2001 1 19)
  ∧ (next_day ∘ snd ∘ snd <$> last ZODIAC_DATES) = Some (Date 2001 12 22).
Proof.
  split; [vm_compute; reflexivity|].
  split; [repeat constructor|].
  repeat split.
Qed.

Lemma spec_resolve_checked :
  forallb (λ m, forallb
     (λ d, implb (valid_date 2000 m d)
             match spec_resolve m d with
             | Some s => bool_decide (s ∈ SIGNS)
             | None => false
             end)
     (seqZ 1 31)) (seqZ 1 12) = true.
Proof. vm_compute. reflexivity. Qed.

(** The spec's resolver is total on the 366 days of the calendar. *)
Lemma spec_resolve_total (m d : Z) :
  valid_date 2000 m d = true → ∃ s, spec_resolve m d = Some s ∧ s ∈ SIGNS.
Proof.
  intros Hvalid.
  pose proof (month_day_cases _ spec_resolve_checked m d) as Hc.
  cbv beta in Hc. rewrite Hvalid in Hc.
  unfold valid_date in Hvalid.
  repeat (apply andb_prop in Hvalid; destruct Hvalid as [Hvalid ?]).
  pose proof (days_in_month_le_31 2000 m).
  specialize (Hc ltac:(lia) ltac:(lia)).
  destruct (spec_resolve m d) as [s|]; [|discriminate].
  apply bool_decide_eq_true_1 in Hc. eauto.
Qed.

(** C1 (the code departs from the claim).  The claim: on all 366 month-day
    values [detect_sign] returns one of the twelve signs, and the 400
    branch is never reached.  The handler does not: a birthdate on Jan 1
    or Jan 19 runs through the whole table without a match, since the
    capricorn entry is compared as Dec 22 2001 <= ref <= Jan 19 2001, and
    the late-December patch does not cover January, so the request ends
    in the 400 "Invalid date" branch; a birthdate on Feb 29 does not
    reach the table at all, [date(2001, 2, 29)] raising [ValueError]
    (status 500). *)
Theorem detect_sign_january_and_feb29 :
  detect_sign (born 2001 1 1) = Raise (HTTPException 400 (py "Invalid date"))
  ∧ detect_sign (born 2001 1 19) = Raise (HTTPException 400 (py "Invalid date"))
  ∧ status_code_of (detect_sign (born 2001 1 1)) = 400
  ∧ valid_date 2000 2 29 = true
  ∧ detect_sign (born 2000 2 29)
    = Raise (ValueError (py "day is out of range for month"))
  ∧ status_code_of (detect_sign (born 2000 2 29)) = 500.
Proof. repeat split. Qed.

(** C2 (the code departs from the claim).  The claim: Jan 1 gives
    capricorn, Mar 21 aries, Dec 22 capricorn, Jul 22 cancer, every
    interval being inclusive on both boundary days.  Three of the four
    hold; Jan 1 ends in the 400 branch.  Of the 24 boundary days of the
    table, the start and the end of the eleven signs after capricorn give
    their sign, Dec 22 gives capricorn, and Jan 19, the end of
    capricorn, ends in the 400 branch as well. *)
Theorem detect_sign_boundary_days :
  detect_sign (born 2001 1 1) = Raise (HTTPException 400 (py "Invalid date"))
  ∧ detect_sign (born 2001 3 21) = Return {| found_sign := py "aries" |}
  ∧ detect_sign (born 2001 12 22) = Return {| found_sign := py "capricorn" |}
  ∧ detect_sign (born 2001 7 22) = Return {| found_sign := py "cancer" |}
  ∧ Forall (λ e, detect_sign (born 2001 (month e.2.1) (day e.2.1))
                 = Return {| found_sign := e.1 |}) ZODIAC_DATES
  ∧ Forall (λ e, detect_sign (born 2001 (month e.2.2) (day e.2.2))
                 = Return {| found_sign := e.1 |}) (tail ZODIAC_DATES)
  ∧ detect_sign (born 2001 1 19) = Raise (HTTPException 400 (py "Invalid date")).
Proof.
  repeat (split; [first [reflexivity | repeat constructor]|]).
  reflexivity.
Qed.

(** C10.  The answer of [detect_sign] depends on the month and the day of
    the birthdate only: two requests that agree on them get the same
    answer (the same sign, or the same error), whatever their birth years
    and names. *)
Theorem detect_sign_month_day_only (info1 info2 : BirthInfo) :
  month (birthdate info1) = month (birthdate info2) →
  day (birthdate info1) = day (birthdate info2) →
  detect_sign info1 = detect_sign info2.
Proof.
  intros Hm Hd.
  rewrite (detect_sign_born info1), (detect_sign_born info2), Hm, Hd.
  reflexivity.
Qed.

Lemma detect_sign_month_day_only_witness :
  detect_sign {| name := Some (py "Ada"); birthdate := Date 1984 8 23 |}
  = detect_sign {| name := None; birthdate := Date 2017 8 23 |}
  ∧ detect_sign {| name := None; birthdate := Date 2017 8 23 |}
    = Return {| found_sign := py "virgo" |}.
Proof.
  split.
  - apply detect_sign_month_day_only; reflexivity.
  - reflexivity.
Defined.

(** ** Strings *)

Section StringFacts.
Context `{UCD : UnicodeData}.

Lemma concat_imap_ascii (f : nat → N → str) (l : str) :
  (∀ i c, is_ascii c = true → f i c = [ascii_lower c]) →
  Forall (λ c, is_ascii c = true) l →
  concat (imap f l) = map ascii_lower l.
Proof.
  intros Hf Hl. revert f Hf.
  induction Hl as [|c l Hc _ IH]; intros f Hf; [reflexivity|].
  cbn. rewrite (Hf 0%nat c Hc). cbn. f_equal.
  apply IH. intros i c' Hc'. apply Hf, Hc'.
Qed.

(** On an ASCII string [lower] is the ASCII mapping, letter by letter. *)
Lemma lower_ascii (s : str) :
  Forall (λ c, is_ascii c = true) s → lower s = map ascii_lower s.
Proof.
  intros Hs. apply concat_imap_ascii; [|exact Hs].
  intros i c Hc. unfold lower_char. rewrite Hc. reflexivity.
Qed.

Lemma case_variant_char (a b : N) :
  ascii_islower b = true → a = b ∨ a = ascii_upper b →
  is_ascii a = true ∧ ascii_lower a = b.
Proof.
  unfold ascii_upper, ascii_lower, is_ascii.
  unfold ascii_islower, ascii_isupper.
  intros Hb Hab. rewrite Hb in Hab.
  apply andb_prop in Hb as [Hlo Hhi].
  apply N.leb_le in Hlo, Hhi.
  destruct Hab as [->| ->].
  - split; [apply N.ltb_lt; lia|].
    destruct (65 <=? b)%N eqn:H1, (b <=? 90)%N eqn:H2; cbn; try reflexivity.
    apply N.leb_le in H2. lia.
  - split; [apply N.ltb_lt; lia|].
    assert (H1 : (65 <=? b - 32)%N = true) by (apply N.leb_le; lia).
    assert (H2 : (b - 32 <=? 90)%N = true) by (apply N.leb_le; lia).
    rewrite H1, H2. cbn. lia.
Qed.

(** Lower-casing a case variant of a lower-case ASCII word gives the word. *)
Lemma lower_case_variant (s label : str) :
  Forall (λ c, ascii_islower c = true) label →
  case_variant s label → lower s = label.
Proof.
  intros Hlabel Hvar.
  assert (Hs : Forall (λ c, is_ascii c = true) s ∧ map ascii_lower s = label).
  { induction Hvar as [|a b s label Hab _ IH]; [split; [constructor | reflexivity]|].
    apply Forall_cons in Hlabel as [Hb Hlabel].
    destruct (case_variant_char a b Hb Hab) as [Ha Hlow].
    destruct (IH Hlabel) as [Hs Hmap].
    split; [constructor; assumption|]. cbn. rewrite Hlow, Hmap. reflexivity. }
  destruct Hs as [Hs Hmap]. rewrite lower_ascii; assumption.
Qed.

(** The title case of a sign: its first letter in upper case. *)
Lemma title_sign (sign : str) :
  sign ∈ SIGNS →
  ∃ c rest, sign = c :: rest ∧ title sign = ascii_upper c :: rest.
Proof.
  intros Hin. unfold SIGNS, ZODIAC_DATES in Hin. cbn [map fst] in Hin.
  repeat (apply elem_of_cons in Hin as [->|Hin];
          [eexists _, _; split; reflexivity|]).
  apply elem_of_nil in Hin. destruct Hin.
Qed.

(** The content is never the empty string. *)
Lemma content_nonempty (sign scope today : str) : content sign scope today ≠ [].
Proof.
  unfold content. intros Hnil.
  apply app_eq_nil in Hnil as [_ Hnil]. discriminate Hnil.
Qed.
End StringFacts.

(** The twelve signs are words of lower-case ASCII letters. *)
Lemma SIGNS_lowercase : Forall (Forall (λ c, ascii_islower c = true)) SIGNS.
Proof. repeat constructor. Qed.

Lemma SIGNS_twelve : length SIGNS = 12%nat ∧ NoDup SIGNS.
Proof. split; [reflexivity|]. apply (bool_decide_eq_true_1 _). vm_compute. reflexivity. Qed.

(** Proves [case_variant s label] for two literals, letter by letter. *)
Ltac is_case_variant :=
  unfold case_variant; cbn;
  repeat (apply List.Forall2_cons;
          [first [left; reflexivity | right; reflexivity]|]);
  apply List.Forall2_nil.

(** ** POST /api/horoscope *)

Section HoroscopeFacts.
Context `{UCD : UnicodeData} {S : Type} `{DB : Database S}.

(** The two paths of the handler. *)
Lemma get_horoscope_unknown (utcnow : datetime) (req : HoroscopeRequest) (st : S) :
  lower (req_sign req) ∉ SIGNS →
  get_horoscope utcnow req st
  = (Raise (HTTPException 400 (py "Unknown sign")), st).
Proof.
  intros Hnot. unfold get_horoscope.
  rewrite (bool_decide_eq_false_2 _ Hnot). reflexivity.
Qed.

Lemma get_horoscope_known (utcnow : datetime) (req : HoroscopeRequest) (st : S) :
  lower (req_sign req) ∈ SIGNS →
  ∃ new_id,
    get_horoscope utcnow req st
    = (Return {| resp_date := strftime_Ymd utcnow;
                 resp_sign := lower (req_sign req);
                 resp_scope := req_scope req;
                 resp_content :=
                   content (lower (req_sign req)) (req_scope req)
                     (strftime_Ymd utcnow);
                 resp_id := new_id |},
       (create_document (py "reading")
          {| reading_sign := lower (req_sign req);
             reading_date := strftime_Ymd utcnow;
             reading_content :=
               content (lower (req_sign req)) (req_scope req)
                 (strftime_Ymd utcnow) |} st).2)
    ∧ new_id = (match (create_document (py "reading")
                        {| reading_sign := lower (req_sign req);
                           reading_date := strftime_Ymd utcnow;
                           reading_content :=
                             content (lower (req_sign req)) (req_scope req)
                               (strftime_Ymd utcnow) |} st).1 with
               | inr i => Some i
               | inl _ => None
               end).
Proof.
  intros Hin. unfold get_horoscope.
  rewrite (bool_decide_eq_true_2 _ Hin). cbn [negb].
  destruct (create_document _ _ st) as [[e|i] st']; eexists; split; reflexivity.
Qed.

(** The handler answers 200 or 400, nothing else. *)
Lemma get_horoscope_status (utcnow : datetime) (req : HoroscopeRequest) (st : S) :
  (lower (req_sign req) ∈ SIGNS
   ∧ status_code_of (get_horoscope utcnow req st).1 = 200)
  ∨ ((lower (req_sign req) ∉ SIGNS)
     ∧ status_code_of (get_horoscope utcnow req st).1 = 400).
Proof.
  destruct (decide (lower (req_sign req) ∈ SIGNS)) as [Hin|Hnot].
  - left. split; [exact Hin|].
    destruct (get_horoscope_known utcnow req st Hin) as (i & -> & _). reflexivity.
  - right. split; [exact Hnot|].
    rewrite (get_horoscope_unknown utcnow req st Hnot). reflexivity.
Qed.
End HoroscopeFacts.

(** C3.  POST /api/horoscope answers 400 exactly when the lower-cased
    sign of the request is not one of the twelve labels.  Every case
    variant of a label is accepted (for instance "Leo" and "LEO", served
    as "leo"), and "dragon" is rejected with 400 "Unknown sign", the
    store left as it was. *)
Theorem get_horoscope_400_iff_unknown_sign
    `{UCD : UnicodeData} {S : Type} `{DB : Database S}
    (utcnow : datetime) (req : HoroscopeRequest) (st : S) :
  (status_code_of (get_horoscope utcnow req st).1 = 400
   ↔ lower (req_sign req) ∉ SIGNS)
  ∧ (∀ label, label ∈ SIGNS → case_variant (req_sign req) label →
       ∃ resp, (get_horoscope utcnow req st).1 = Return resp
               ∧ resp_sign resp = label)
  ∧ (req_sign req = py "Leo" ∨ req_sign req = py "LEO" →
       ∃ resp, (get_horoscope utcnow req st).1 = Return resp
               ∧ resp_sign resp = py "leo")
  ∧ (req_sign req = py "dragon" →
       get_horoscope utcnow req st
       = (Raise (HTTPException 400 (py "Unknown sign")), st)).
Proof.
  assert (Hvariant : ∀ label, label ∈ SIGNS → case_variant (req_sign req) label →
            ∃ resp, (get_horoscope utcnow req st).1 = Return resp
                    ∧ resp_sign resp = label).
  { intros label Hlabel Hvar.
    pose proof SIGNS_lowercase as Hlow.
    rewrite Forall_forall in Hlow.
    pose proof (lower_case_variant _ _ (Hlow label Hlabel) Hvar) as Hlower.
    destruct (get_horoscope_known utcnow req st) as (i & -> & _);
      [rewrite Hlower; exact Hlabel|].
    eexists. split; [reflexivity|]. exact Hlower. }
  split; [|split; [exact Hvariant|split]].
  - destruct (get_horoscope_status utcnow req st) as [[Hin Hst]|[Hnot Hst]];
      rewrite Hst; split; intros H; try done.
  - intros Hreq. apply Hvariant.
    + apply (bool_decide_eq_true_1 _). vm_compute. reflexivity.
    + destruct Hreq as [-> | ->]; is_case_variant.
  - intros Hreq. apply get_horoscope_unknown. unfold lower. rewrite Hreq.
    apply (bool_decide_eq_false_1 _). vm_compute. reflexivity.
Qed.

Lemma get_horoscope_400_iff_unknown_sign_witness :
  (get_horoscope (UCD := ucd_unchanged) new_year_2024
     (ask (py "ScOrPiO") (py "weekly")) empty_store).1
  = Return {| resp_date := py "2024-01-01"; resp_sign := py "scorpio";
              resp_scope := py "weekly";
              resp_content :=
                py "Scorpio Weekly Horoscope for 2024-01-01: " ++ body_text;
              resp_id := Some (py "0") |}
  ∧ status_code_of
      (get_horoscope (UCD := ucd_unchanged) new_year_2024
         (ask (py "dragon") (py "daily")) empty_store).1 = 400.
Proof.
  split; [vm_compute; reflexivity|].
  apply (get_horoscope_400_iff_unknown_sign (UCD := ucd_unchanged)).
  apply (bool_decide_eq_false_1 _). vm_compute. reflexivity.
Defined.

(** *** The date on the clock, as text *)

Lemma number_from_digit (acc n : Z) (s : str) :
  number_from acc (digit n :: s) = number_from (10 * acc + n mod 10) s.
Proof.
  cbn [number_from]. unfold is_decimal_digit, digit.
  pose proof (Z.mod_pos_bound n 10 ltac:(lia)) as Hmod.
  assert (Hlo : (48 <=? 48 + Z.to_N (n mod 10))%N = true) by (apply N.leb_le; lia).
  assert (Hhi : (48 + Z.to_N (n mod 10) <=? 57)%N = true) by (apply N.leb_le; lia).
  rewrite Hlo, Hhi. cbn [andb]. f_equal. lia.
Qed.

(** The year, the month and the day read back from their digits. *)
Lemma number_year_digits (y : Z) :
  0 ≤ y ≤ 9999 →
  number (year_digits y) = Some y
  ∧ (1000 ≤ y → length (year_digits y) = 4%nat).
Proof.
  intros Hy. unfold year_digits.
  destruct (y <? 10) eqn:H10; [|destruct (y <? 100) eqn:H100;
    [|destruct (y <? 1000) eqn:H1000]];
    (split; [|intros; first [lia | reflexivity]]);
    unfold number; rewrite !number_from_digit; cbn [number_from]; f_equal;
    Z.div_mod_to_equations; lia.
Qed.

Lemma number_two_digits (n : Z) :
  0 ≤ n ≤ 99 → number (two_digits n) = Some n.
Proof.
  intros Hn. unfold two_digits, number.
  rewrite !number_from_digit. cbn [number_from]. f_equal.
  Z.div_mod_to_equations; lia.
Qed.

Section TitleFacts.
Context `{UCD : UnicodeData}.

(** After a cased character, lower-case ASCII letters stay as they are. *)
Lemma title_from_lowercase (s : str) (i : nat) (rest : str) :
  Forall (λ c, ascii_islower c = true) rest →
  title_from s i true rest = rest.
Proof.
  intros Hrest. revert i.
  induction Hrest as [|c rest Hc _ IH]; intros i; [reflexivity|].
  cbn [title_from].
  assert (Hascii : is_ascii c = true).
  { unfold ascii_islower in Hc. apply andb_prop in Hc as [_ Hc].
    apply N.leb_le in Hc. apply N.ltb_lt. lia. }
  assert (Hupper : ascii_isupper c = false).
  { unfold ascii_islower in Hc. apply andb_prop in Hc as [Hc _].
    apply N.leb_le in Hc. unfold ascii_isupper.
    apply andb_false_iff. right. apply N.leb_gt. lia. }
  unfold lower_char, is_cased, ascii_lower.
  rewrite Hascii, Hupper, Hc. cbn [orb app]. rewrite IH. reflexivity.
Qed.

(** The title case of a word of lower-case ASCII letters: its first
    letter in upper case. *)
Lemma title_lowercase_word (c : N) (rest : str) :
  Forall (λ x, ascii_islower x = true) (c :: rest) →
  title (c :: rest) = ascii_upper c :: rest.
Proof.
  intros [Hc Hrest]%Forall_cons.
  unfold title. cbn [title_from].
  assert (Hascii : is_ascii c = true).
  { unfold ascii_islower in Hc. apply andb_prop in Hc as [_ Hc'].
    apply N.leb_le in Hc'. apply N.ltb_lt. lia. }
  unfold title_char, is_cased. rewrite Hascii, Hc, orb_true_r.
  cbn [app]. rewrite (title_from_lowercase _ _ _ Hrest). reflexivity.
Qed.
End TitleFacts.

(** C4.  For a request with a canonical sign, whatever the scope and the
    date on the clock, the content served is, in this order: the sign in
    title case (its first letter in upper case), a space, the scope in
    title case (for a scope of lower-case letters, its first letter in
    upper case), " Horoscope for ", the date, ": " and the fixed body
    text.  The date is the year, the month and the day of the clock in
    decimal, in that order, with a hyphen between them, the month and the
    day on two digits and a year from 1000 on four.  With sign "leo",
    scope "daily" and the clock on January 1st, 2024, the content is
    "Leo Daily Horoscope for 2024-01-01: " followed by the body, and so
    contains "Leo", "Daily" and "2024-01-01". *)
Theorem horoscope_content_template
    `{UCD : UnicodeData} {S : Type} `{DB : Database S}
    (utcnow : datetime) (req : HoroscopeRequest) (st : S) :
  lower (req_sign req) ∈ SIGNS →
  valid_date (dt_year utcnow) (dt_month utcnow) (dt_day utcnow) = true →
  ∃ resp sign_text scope_text year_text month_text day_text,
    (get_horoscope utcnow req st).1 = Return resp
    ∧ resp_sign resp = lower (req_sign req)
    ∧ resp_scope resp = req_scope req
    ∧ resp_content resp
      = sign_text ++ py " " ++ scope_text ++ py " Horoscope for "
        ++ resp_date resp ++ py ": "
        ++ py "Energy favors thoughtful planning. Stay open to small surprises; a conversation could point you toward a useful opportunity."
    ∧ sign_text = title (resp_sign resp)
    ∧ (∃ c rest, resp_sign resp = c :: rest ∧ sign_text = ascii_upper c :: rest)
    ∧ scope_text = title (resp_scope resp)
    ∧ (∀ c rest, resp_scope resp = c :: rest →
         Forall (λ x, ascii_islower x = true) (c :: rest) →
         scope_text = ascii_upper c :: rest)
    ∧ resp_date resp = year_text ++ py "-" ++ month_text ++ py "-" ++ day_text
    ∧ number year_text = Some (dt_year utcnow)
    ∧ number month_text = Some (dt_month utcnow)
    ∧ number day_text = Some (dt_day utcnow)
    ∧ length month_text = 2%nat
    ∧ length day_text = 2%nat
    ∧ (1000 ≤ dt_year utcnow → length year_text = 4%nat)
    ∧ (resp_sign resp = py "leo" → resp_scope resp = py "daily" →
       dt_year utcnow = 2024 → dt_month utcnow = 1 → dt_day utcnow = 1 →
       resp_date resp = py "2024-01-01"
       ∧ resp_content resp
         = py "Leo Daily Horoscope for 2024-01-01: Energy favors thoughtful planning. Stay open to small surprises; a conversation could point you toward a useful opportunity."
       ∧ contains (py "Leo") (resp_content resp)
       ∧ contains (py "Daily") (resp_content resp)
       ∧ contains (py "2024-01-01") (resp_content resp)).
Proof.
  intros Hin Hvalid.
  assert (Hclock : 1 ≤ dt_year utcnow ≤ 9999 ∧ 1 ≤ dt_month utcnow ≤ 12
                   ∧ 1 ≤ dt_day utcnow ≤ 31).
  { unfold valid_date in Hvalid.
    pose proof (days_in_month_le_31 (dt_year utcnow) (dt_month utcnow)). lia. }
  destruct (get_horoscope_known utcnow req st Hin) as (i & -> & _).
  destruct (number_year_digits (dt_year utcnow) ltac:(lia)) as [Hyear Hfour].
  eexists _, (title (lower (req_sign req))), (title (req_scope req)),
    (year_digits (dt_year utcnow)), (two_digits (dt_month utcnow)),
    (two_digits (dt_day utcnow)).
  split; [reflexivity|].
  cbn [fst resp_sign resp_scope resp_date resp_content].
  split; [reflexivity|]. split; [reflexivity|]. split; [reflexivity|].
  split; [reflexivity|]. split; [apply title_sign, Hin|].
  split; [reflexivity|].
  split; [intros c rest -> Hlow; apply title_lowercase_word, Hlow|].
  split; [reflexivity|]. split; [exact Hyear|].
  split; [apply number_two_digits; lia|].
  split; [apply number_two_digits; lia|].
  split; [reflexivity|]. split; [reflexivity|]. split; [exact Hfour|].
  intros Hleo Hdaily Hy Hm Hd.
  unfold content, strftime_Ymd. rewrite Hleo, Hdaily, Hy, Hm, Hd.
  split; [reflexivity|]. split; [reflexivity|].
  split; [exists [], (py " Daily Horoscope for 2024-01-01: " ++ body_text); reflexivity|].
  split; [exists (py "Leo "), (py " Horoscope for 2024-01-01: " ++ body_text); reflexivity|].
  exists (py "Leo Daily Horoscope for "), (py ": " ++ body_text); reflexivity.
Qed.

Lemma horoscope_content_template_witness :
  ∃ resp,
    (get_horoscope (UCD := ucd_unchanged) new_year_2024
       (ask (py "Leo") (py "daily")) empty_store).1 = Return resp
    ∧ resp_date resp = py "2024-01-01"
    ∧ resp_content resp
      = py "Leo Daily Horoscope for 2024-01-01: Energy favors thoughtful planning. Stay open to small surprises; a conversation could point you toward a useful opportunity."
    ∧ contains (py "Leo") (resp_content resp)
    ∧ contains (py "Daily") (resp_content resp)
    ∧ contains (py "2024-01-01") (resp_content resp).
Proof.
  destruct (horoscope_content_template (UCD := ucd_unchanged) new_year_2024
              (ask (py "Leo") (py "daily")) empty_store)
    as (resp & sign_text & scope_text & year_text & month_text & day_text
        & Hrun & Hsign & Hscope & _ & _ & _ & _ & _ & _ & _ & _ & _ & _ & _ & _
        & Hleo).
  - apply (bool_decide_eq_true_1 _). vm_compute. reflexivity.
  - reflexivity.
  - exists resp. split; [exact Hrun|].
    apply Hleo; [rewrite Hsign | rewrite Hscope | | |]; reflexivity.
Defined.

(** C6.  Two runs of POST /api/horoscope with the same sign, the same
    scope and the same calendar date on the clock serve the same content
    (or both answer 400), whatever the time of day, the store and the
    state of the store. *)
Theorem horoscope_content_deterministic
    `{UCD : UnicodeData} {S1 S2 : Type} `{DB1 : Database S1} `{DB2 : Database S2}
    (now1 now2 : datetime) (req1 req2 : HoroscopeRequest) (st1 : S1) (st2 : S2) :
  req_sign req1 = req_sign req2 →
  req_scope req1 = req_scope req2 →
  dt_year now1 = dt_year now2 →
  dt_month now1 = dt_month now2 →
  dt_day now1 = dt_day now2 →
  resp_content <$> (get_horoscope now1 req1 st1).1
  = resp_content <$> (get_horoscope now2 req2 st2).1.
Proof.
  intros Hsign Hscope Hy Hm Hd.
  assert (Htoday : strftime_Ymd now1 = strftime_Ymd now2)
    by (unfold strftime_Ymd; rewrite Hy, Hm, Hd; reflexivity).
  destruct (decide (lower (req_sign req1) ∈ SIGNS)) as [Hin|Hnot].
  - destruct (get_horoscope_known now1 req1 st1 Hin) as (i1 & -> & _).
    rewrite Hsign in Hin.
    destruct (get_horoscope_known now2 req2 st2 Hin) as (i2 & -> & _).
    rewrite Hsign, Hscope, Htoday. reflexivity.
  - rewrite (get_horoscope_unknown now1 req1 st1 Hnot).
    rewrite Hsign in Hnot.
    rewrite (get_horoscope_unknown now2 req2 st2 Hnot). reflexivity.
Qed.

Lemma horoscope_content_deterministic_witness :
  resp_content <$> (get_horoscope (UCD := ucd_unchanged) new_year_2024
                      (ask (py "Virgo") (py "monthly")) empty_store).1
  = resp_content <$> (get_horoscope (UCD := ucd_unchanged) new_year_2024_evening
                        (ask (py "Virgo") (py "monthly")) down_store).1
  ∧ resp_content <$> (get_horoscope (UCD := ucd_unchanged) new_year_2024
                        (ask (py "Virgo") (py "monthly")) empty_store).1
    = Return (py "Virgo Monthly Horoscope for 2024-01-01: " ++ body_text).
Proof.
  split.
  - apply (horoscope_content_deterministic (UCD := ucd_unchanged)); reflexivity.
  - vm_compute. reflexivity.
Defined.

(** C7.  A request either is refused with 400 and leaves the store as it
    was, or is served, and then the store has seen one call, which
    persists in collection "reading" the [Reading] the response reports:
    its sign is one of the twelve labels, all of lower-case letters, and
    its content is not empty. *)
Theorem persisted_reading_invariant
    `{UCD : UnicodeData} {S : Type} `{DB : Database S}
    (utcnow : datetime) (req : HoroscopeRequest) (st : S) :
  get_horoscope utcnow req st
  = (Raise (HTTPException 400 (py "Unknown sign")), st)
  ∨ ∃ resp,
      (get_horoscope utcnow req st).1 = Return resp
      ∧ (get_horoscope utcnow req st).2
        = (create_document (py "reading") (reading_of resp) st).2
      ∧ reading_ok (reading_of resp)
      ∧ Forall (λ c, ascii_islower c = true) (reading_sign (reading_of resp)).
Proof.
  destruct (decide (lower (req_sign req) ∈ SIGNS)) as [Hin|Hnot].
  - right. destruct (get_horoscope_known utcnow req st Hin) as (i & -> & _).
    eexists. split; [reflexivity|]. split; [reflexivity|].
    split; [split; [exact Hin | apply content_nonempty]|].
    pose proof SIGNS_lowercase as Hlow. rewrite Forall_forall in Hlow.
    apply Hlow, Hin.
  - left. apply get_horoscope_unknown, Hnot.
Qed.

(** ** GET /api/readings *)

Section ReadingsFacts.
Context {S : Type} `{DB : Database S}.

(** The handler makes one call, [get_documents("reading", filt, 50)],
    and answers 200 whatever comes of it. *)
Lemma list_readings_query (sign : option str) (st : S) :
  (list_readings sign st).2
  = (get_documents (py "reading") (filt sign) 50 st).2
  ∧ (list_readings sign st).1
    = Return {| items :=
                  match (get_documents (py "reading") (filt sign) 50 st).1 with
                  | inr docs => rename_id <$> docs
                  | inl _ => []
                  end |}.
Proof.
  unfold list_readings.
  destruct (get_documents _ _ _ st) as [[e|docs] st']; split; reflexivity.
Qed.
End ReadingsFacts.

(** ** The in-memory store *)

Lemma mem_get_documents_limit (collection : str) (flt : dict) (limit : Z)
    (st : MemStore) (docs : list dict) :
  (get_documents collection flt limit st).1 = inr docs →
  (length docs ≤ Z.to_nat limit)%nat.
Proof.
  cbn. unfold mem_get_documents.
  destruct (connected st); cbn; intros Hdocs; [|discriminate].
  injection Hdocs as <-. rewrite length_take. lia.
Qed.

(** The empty filter matches every document. *)
Lemma matches_empty (d : dict) : matches ∅ d = true.
Proof. apply bool_decide_eq_true_2, map_Forall_empty. Qed.

(** A store that is down fails every call and stays as it is. *)
Lemma down_store_fails :
  (∀ c r, ∃ e, (create_document c r down_store).1 = inl e)
  ∧ (∀ c f n, ∃ e, (get_documents c f n down_store).1 = inl e).
Proof. split; intros; eexists; reflexivity. Qed.

(** C5.  When the store fails its calls, POST /api/horoscope with a
    known sign still returns its response, with no id in it, and GET
    /api/readings returns [{"items": []}]; both answer 200, and POST
    /api/horoscope never answers 500 or above. *)
Theorem store_failure_degrades
    `{UCD : UnicodeData} {S : Type} `{DB : Database S}
    (utcnow : datetime) (req : HoroscopeRequest) (sign : option str) (st : S) :
  (∀ c r, ∃ e, (create_document c r st).1 = inl e) →
  (∀ c f n, ∃ e, (get_documents c f n st).1 = inl e) →
  (lower (req_sign req) ∈ SIGNS →
     ∃ resp, (get_horoscope utcnow req st).1 = Return resp
             ∧ resp_id resp = None
             ∧ status_code_of (get_horoscope utcnow req st).1 = 200)
  ∧ status_code_of (get_horoscope utcnow req st).1 < 500
  ∧ (list_readings sign st).1 = Return {| items := [] |}
  ∧ status_code_of (list_readings sign st).1 = 200.
Proof.
  intros Hcreate Hget.
  split; [|split].
  - intros Hin.
    destruct (get_horoscope_known utcnow req st Hin) as (i & -> & ->).
    destruct (Hcreate (py "reading")
                {| reading_sign := lower (req_sign req);
                   reading_date := strftime_Ymd utcnow;
                   reading_content :=
                     content (lower (req_sign req)) (req_scope req)
                       (strftime_Ymd utcnow) |}) as [e ->].
    eexists. repeat split.
  - destruct (get_horoscope_status utcnow req st) as [[_ ->]|[_ ->]]; lia.
  - destruct (list_readings_query sign st) as [_ ->].
    destruct (Hget (py "reading") (filt sign) 50) as [e ->].
    split; reflexivity.
Qed.

Lemma store_failure_degrades_witness :
  (get_horoscope (UCD := ucd_unchanged) new_year_2024
     (ask (py "Pisces") (py "daily")) down_store).1
  = Return {| resp_date := py "2024-01-01"; resp_sign := py "pisces";
              resp_scope := py "daily";
              resp_content :=
                py "Pisces Daily Horoscope for 2024-01-01: " ++ body_text;
              resp_id := None |}
  ∧ (list_readings (Some (py "pisces")) down_store).1 = Return {| items := [] |}
  ∧ status_code_of (list_readings (Some (py "pisces")) down_store).1 = 200.
Proof.
  destruct down_store_fails as [Hcreate Hget].
  destruct (store_failure_degrades (UCD := ucd_unchanged) new_year_2024
              (ask (py "Pisces") (py "daily")) (Some (py "pisces")) down_store
              Hcreate Hget) as (_ & _ & Hitems & Hstatus).
  split; [vm_compute; reflexivity|].
  split; [exact Hitems | exact Hstatus].
Defined.

(** C8.  GET /api/readings asks the store for at most 50 documents of
    collection "reading", and answers with as many items as the store
    returns: with a store that returns no more documents than the limit
    it is given, the items are at most 50, however many the store holds. *)
Theorem list_readings_at_most_50 {S : Type} `{DB : Database S}
    (sign : option str) (st : S) :
  (∀ c f n st0 docs,
     (get_documents c f n st0).1 = inr docs → (length docs ≤ Z.to_nat n)%nat) →
  (list_readings sign st).2 = (get_documents (py "reading") (filt sign) 50 st).2
  ∧ ∃ resp, (list_readings sign st).1 = Return resp
            ∧ (length (items resp) ≤ 50)%nat.
Proof.
  intros Hlimit.
  destruct (list_readings_query sign st) as [Hstate ->].
  split; [exact Hstate|].
  eexists. split; [reflexivity|]. cbn [items].
  destruct (get_documents _ _ _ st).1 as [e|docs] eqn:Hdocs; [cbn; lia|].
  rewrite length_fmap. apply (Hlimit _ _ _ _ _ Hdocs).
Qed.

Lemma list_readings_at_most_50_witness :
  (length (default [] (collections busy_store !! py "reading")) = 60)%nat
  ∧ ∃ resp, (list_readings None busy_store).1 = Return resp
            ∧ (length (items resp) ≤ 50)%nat.
Proof.
  split; [vm_compute; reflexivity|].
  exact (proj2 (list_readings_at_most_50 None busy_store mem_get_documents_limit)).
Defined.

(** C9.  An empty [sign] parameter is an absent one: the filter is the
    empty dict in both cases, and the handler does the same to the store
    and gives the same answer.  Any other [sign] filters on it. *)
Theorem empty_sign_is_absent {S : Type} `{DB : Database S} (st : S) :
  filt (Some []) = ∅
  ∧ filt None = ∅
  ∧ list_readings (Some []) st = list_readings None st
  ∧ (list_readings (Some []) st).2
    = (get_documents (py "reading") ∅ 50 st).2
  ∧ ∀ c s, filt (Some (c :: s)) = {[ py "sign" := VStr (c :: s) ]}.
Proof.
  repeat split.
  apply (list_readings_query (Some []) st).
Qed.

(** Sixty readings are stored, fifty are listed. *)
Example list_readings_busy_store :
  length <$> (items <$> (list_readings None busy_store).1) = Return 50%nat.
Proof. vm_compute. reflexivity. Qed.

(** ** The readings of the in-memory store *)

Section StoredReadings.
Context `{UCD : UnicodeData}.

Lemma document_of_ok (r : Reading) (new_id : str) :
  reading_ok r → document_ok (<[ py "_id" := VObjectId new_id ]> (document_of r)).
Proof.
  intros [Hsign Htext].
  exists (reading_sign r), (reading_content r).
  unfold document_of.
  split; [|split; [exact Hsign|split; [|exact Htext]]].
  - rewrite lookup_insert_ne by (vm_compute; discriminate).
    apply lookup_insert_eq.
  - do 3 (rewrite lookup_insert_ne by (vm_compute; discriminate)).
    apply lookup_singleton_eq.
Qed.

Lemma mem_create_document_ok (r : Reading) (st : MemStore) :
  reading_ok r →
  Forall document_ok (stored_readings st) →
  Forall document_ok
    (stored_readings (mem_create_document (py "reading") r st).2).
Proof.
  intros Hr Hst. unfold mem_create_document.
  destruct (connected st); [|exact Hst].
  unfold stored_readings at 1. cbn [snd collections].
  rewrite lookup_insert_eq. cbn [default].
  apply Forall_app. split; [exact Hst|].
  apply Forall_singleton, document_of_ok, Hr.
Qed.

(** One event keeps the stored readings within the invariant. *)
Lemma after_document_ok (st : MemStore) (ev : event) :
  Forall document_ok (stored_readings st) →
  Forall document_ok (stored_readings (after st ev)).
Proof.
  intros Hst. destruct ev as [utcnow req|sign|up]; cbn [after].
  - destruct (decide (lower (req_sign req) ∈ SIGNS)) as [Hin|Hnot].
    + destruct (get_horoscope_known utcnow req st Hin) as (i & -> & _).
      apply mem_create_document_ok; [|exact Hst].
      split; [exact Hin | apply content_nonempty].
    + rewrite (get_horoscope_unknown utcnow req st Hnot). exact Hst.
  - destruct (list_readings_query sign st) as [-> _].
    cbn. unfold mem_get_documents. destruct (connected st); exact Hst.
  - exact Hst.
Qed.

(** Whatever the requests and the outages since the store was empty, every
    reading it holds has one of the twelve signs and a content. *)
Lemma stored_readings_ok (history : list event) :
  Forall document_ok (stored_readings (foldl after empty_store history)).
Proof.
  induction history as [|ev history IH] using rev_ind; [constructor|].
  rewrite foldl_app. apply after_document_ok, IH.
Qed.
End StoredReadings.

(** * Further properties of the handlers *)

(** ** POST /api/detect-sign *)

(** A sign the loop returns is a label of the table it runs over. *)
Lemma detect_sign_loop_label (ref : date) (table : list (str * (date * date)))
    (sign : str) :
  detect_sign_loop ref table = Return (Some sign) → sign ∈ map fst table.
Proof.
  induction table as [|[label [start_ref end_ref]] table IH];
    cbn [detect_sign_loop map fst]; [discriminate|].
  destruct (mk_date 2001 (month start_ref) (day start_ref)) as [start|e];
    cbn [mbind outcome_bind]; [|discriminate].
  destruct (mk_date 2001 (month end_ref) (day end_ref)) as [end_|e];
    cbn [mbind outcome_bind]; [|discriminate].
  destruct (date_le start ref && date_le ref end_).
  - intros [= ->]. apply list_elem_of_here.
  - intros Hrest. apply list_elem_of_further, IH, Hrest.
Qed.

(** [date(y, m, d)] returns on the dates of the calendar and raises
    [ValueError] elsewhere. *)
Lemma mk_date_valid (y m d : Z) :
  valid_date y m d = true → mk_date y m d = Return (Date y m d).
Proof.
  unfold valid_date, mk_date. intros Hvalid.
  repeat (apply andb_prop in Hvalid; destruct Hvalid as [Hvalid ?]).
  repeat match goal with H : _ = true |- _ => rewrite H; clear H end.
  reflexivity.
Qed.

Lemma mk_date_invalid (y m d : Z) :
  valid_date y m d = false → ∃ msg, mk_date y m d = Raise (ValueError msg).
Proof.
  unfold valid_date, mk_date. intros Hinvalid.
  destruct (1 <=? y), (y <=? 9999), (1 <=? m), (m <=? 12), (1 <=? d),
    (d <=? days_in_month y m);
    cbn [negb andb] in *; first [discriminate Hinvalid | eauto].
Qed.

(** Over a table whose boundary days exist in 2001 the loop never raises. *)
Lemma detect_sign_loop_total (ref : date) (table : list (str * (date * date))) :
  Forall (λ e, valid_date 2001 (month e.2.1) (day e.2.1) = true
               ∧ valid_date 2001 (month e.2.2) (day e.2.2) = true) table →
  ∃ hit, detect_sign_loop ref table = Return hit.
Proof.
  induction 1 as [|[label [start_ref end_ref]] table [Hstart Hend] _ IH];
    cbn [detect_sign_loop]; [eauto|].
  cbn [fst snd] in Hstart, Hend.
  rewrite (mk_date_valid _ _ _ Hstart), (mk_date_valid _ _ _ Hend).
  cbn [mbind outcome_bind].
  destruct (_ && _); [eauto | exact IH].
Qed.

Lemma detect_sign_loop_returns (ref : date) :
  ∃ hit, detect_sign_loop ref ZODIAC_DATES = Return hit.
Proof. apply detect_sign_loop_total. repeat constructor. Qed.

(** X1.  Whatever the request, a sign that [detect_sign] returns is one
    of the twelve labels of [SIGNS]. *)
Theorem detect_sign_returns_a_sign (info : BirthInfo) (resp : SignResponse) :
  detect_sign info = Return resp → found_sign resp ∈ SIGNS.
Proof.
  unfold detect_sign.
  destruct (mk_date 2001 (month (birthdate info)) (day (birthdate info)))
    as [ref|e]; cbn [mbind outcome_bind]; [|discriminate].
  destruct (detect_sign_loop ref ZODIAC_DATES) as [[sign|]|e] eqn:Hloop;
    cbn [mbind outcome_bind]; [| |discriminate].
  - intros [= <-]. apply (detect_sign_loop_label _ _ _ Hloop).
  - change (mk_date 2001 12 22) with (Return (Date 2001 12 22)).
    change (mk_date 2001 12 31) with (Return (Date 2001 12 31)).
    cbn [mbind outcome_bind].
    destruct (_ && _); [|discriminate].
    intros [= <-]. apply (bool_decide_eq_true_1 _). vm_compute. reflexivity.
Qed.

Lemma detect_sign_returns_a_sign_witness :
  detect_sign (born 1999 12 31) = Return {| found_sign := py "capricorn" |}
  ∧ py "capricorn" ∈ SIGNS.
Proof.
  split; [reflexivity|].
  exact (detect_sign_returns_a_sign (born 1999 12 31)
           {| found_sign := py "capricorn" |} eq_refl).
Defined.

(** X2.  The errors of [detect_sign], for any month and day at all: it
    raises [ValueError] exactly when the month and day are no date of
    2001, and otherwise either returns or raises the 400 "Invalid date";
    no other exception leaves it. *)
Theorem detect_sign_errors (info : BirthInfo) :
  ((∃ msg, detect_sign info = Raise (ValueError msg))
   ↔ valid_date 2001 (month (birthdate info)) (day (birthdate info)) = false)
  ∧ ((∃ resp, detect_sign info = Return resp)
     ∨ detect_sign info = Raise (HTTPException 400 (py "Invalid date"))
     ∨ ∃ msg, detect_sign info = Raise (ValueError msg)).
Proof.
  unfold detect_sign.
  destruct (birthdate info) as [y m d]; cbn [year month day birthdate].
  destruct (valid_date 2001 m d) eqn:Hvalid.
  - rewrite (mk_date_valid _ _ _ Hvalid). cbn [mbind outcome_bind].
    destruct (detect_sign_loop_returns (Date 2001 m d)) as [hit ->].
    cbn [mbind outcome_bind].
    change (mk_date 2001 12 22) with (Return (Date 2001 12 22)).
    change (mk_date 2001 12 31) with (Return (Date 2001 12 31)).
    cbn [mbind outcome_bind].
    split; [split; [|discriminate]|].
    + destruct hit as [sign|]; [|destruct (_ && _)]; intros [msg [=]].
    + destruct hit as [sign|]; [|destruct (_ && _)]; eauto.
  - destruct (mk_date_invalid _ _ _ Hvalid) as [msg ->]. cbn [mbind outcome_bind].
    split; [split; eauto | right; right; eauto].
Qed.

Lemma detect_sign_errors_witness :
  ∃ msg, detect_sign (born 2023 4 31) = Raise (ValueError msg).
Proof.
  apply (proj1 (detect_sign_errors (born 2023 4 31))). reflexivity.
Defined.

(** X3.  The status of the answer on the calendar: for a birthdate that is
    a date, the request is refused with 400 exactly on Jan 1 to Jan 19,
    fails with 500 exactly on Feb 29, and is answered with 200 on every
    other day. *)
Theorem detect_sign_status_calendar (info : BirthInfo) :
  valid_date (year (birthdate info)) (month (birthdate info))
    (day (birthdate info)) = true →
  (status_code_of (detect_sign info) = 400
   ↔ month (birthdate info) = 1 ∧ day (birthdate info) ≤ 19)
  ∧ (status_code_of (detect_sign info) = 500
     ↔ month (birthdate info) = 2 ∧ day (birthdate info) = 29)
  ∧ (status_code_of (detect_sign info) = 200
     ↔ ¬ (month (birthdate info) = 1 ∧ day (birthdate info) ≤ 19)
       ∧ ¬ (month (birthdate info) = 2 ∧ day (birthdate info) = 29)).
Proof.
  intros Hvalid. rewrite (detect_sign_calendar info Hvalid).
  destruct (spec_resolve_total _ _ (valid_date_leap _ _ _ Hvalid)) as (s & Hs & _).
  unfold detect_sign_answer. rewrite Hs.
  destruct (birthdate info) as [y m d]; cbn [year month day] in *.
  destruct ((m =? 2) && (d =? 29)) eqn:Hfeb;
    destruct ((m =? 1) && (d <=? 19)) eqn:Hjan;
    cbn [status_code_of]; lia.
Qed.

Lemma detect_sign_status_calendar_witness :
  status_code_of (detect_sign (born 1988 1 7)) = 400
  ∧ status_code_of (detect_sign (born 1988 2 29)) = 500
  ∧ status_code_of (detect_sign (born 1988 1 20)) = 200.
Proof.
  split; [|split].
  - apply (detect_sign_status_calendar (born 1988 1 7)); [reflexivity|].
    cbn. lia.
  - apply (detect_sign_status_calendar (born 1988 2 29)); [reflexivity|].
    cbn. lia.
  - apply (detect_sign_status_calendar (born 1988 1 20)); [reflexivity|].
    cbn. lia.
Defined.

Lemma detect_sign_interval_checked :
  forallb (λ e, forallb (λ m, forallb
     (λ d, implb (valid_date 2000 m d && entry_covers (m, d) e
                  && negb ((m =? 2) && (d =? 29)))
             (bool_decide (detect_sign (born 2001 m d)
                           = Return {| found_sign := e.1 |})))
     (seqZ 1 31)) (seqZ 1 12)) (tail ZODIAC_DATES) = true.
Proof. vm_compute. reflexivity. Qed.

Lemma detect_sign_december_checked :
  forallb (λ m, forallb
     (λ d, implb (valid_date 2000 m d && (m =? 12) && (22 <=? d))
             (bool_decide (detect_sign (born 2001 m d)
                           = Return {| found_sign := py "capricorn" |})))
     (seqZ 1 31)) (seqZ 1 12) = true.
Proof. vm_compute. reflexivity. Qed.

(** X4.  Inclusive intervals by month and day: for a birthdate that is a
    date and not Feb 29, if its month and day lie between the start and
    the end of an entry of the table after capricorn, both ends
    included, [detect_sign] returns the sign of that entry; and from
    Dec 22 to Dec 31 it returns capricorn. *)
Theorem detect_sign_interval (info : BirthInfo) :
  valid_date (year (birthdate info)) (month (birthdate info))
    (day (birthdate info)) = true →
  (∀ e, e ∈ tail ZODIAC_DATES →
        entry_covers (month (birthdate info), day (birthdate info)) e = true →
        ¬ (month (birthdate info) = 2 ∧ day (birthdate info) = 29) →
        detect_sign info = Return {| found_sign := e.1 |})
  ∧ (month (birthdate info) = 12 → 22 ≤ day (birthdate info) →
     detect_sign info = Return {| found_sign := py "capricorn" |}).
Proof.
  intros Hvalid. rewrite detect_sign_born.
  destruct (birthdate info) as [y m d]; cbn [year month day] in *.
  pose proof (valid_date_leap _ _ _ Hvalid) as Hleap.
  assert (Hm : 1 ≤ m ≤ 12 ∧ 1 ≤ d ≤ 31).
  { unfold valid_date in Hvalid. pose proof (days_in_month_le_31 y m). lia. }
  split.
  - intros e He Hcovers Hfeb.
    pose proof detect_sign_interval_checked as Hall.
    rewrite forallb_forall in Hall.
    specialize (Hall e (proj1 (list_elem_of_In _ _) He)).
    pose proof (month_day_cases _ Hall m d (proj1 Hm) (proj2 Hm)) as Hc.
    cbv beta in Hc. rewrite Hleap, Hcovers in Hc.
    apply (bool_decide_eq_true_1 _).
    destruct ((m =? 2) && (d =? 29)) eqn:Hb; [lia | exact Hc].
  - intros Hdec Hday.
    pose proof (month_day_cases _ detect_sign_december_checked m d
                  (proj1 Hm) (proj2 Hm)) as Hc.
    cbv beta in Hc. rewrite Hleap in Hc.
    apply (bool_decide_eq_true_1 _).
    destruct (m =? 12) eqn:H12; [|lia].
    destruct (22 <=? d) eqn:H22; [exact Hc | lia].
Qed.

Lemma detect_sign_interval_witness :
  detect_sign (born 1975 8 22) = Return {| found_sign := py "leo" |}
  ∧ detect_sign (born 1975 12 31) = Return {| found_sign := py "capricorn" |}.
Proof.
  split.
  - apply (proj1 (detect_sign_interval (born 1975 8 22) eq_refl)
             (py "leo", (Date 2001 7 23, Date 2001 8 22))).
    + apply (bool_decide_eq_true_1 _). vm_compute. reflexivity.
    + reflexivity.
    + cbn. lia.
  - apply (proj2 (detect_sign_interval (born 1975 12 31) eq_refl)).
    + reflexivity.
    + cbn. lia.
Defined.

(** ** POST /api/horoscope *)

Section MoreHoroscopeFacts.
Context `{UCD : UnicodeData}.

(** Lower-casing leaves the twelve labels as they are. *)
Lemma lower_sign (sign : str) : sign ∈ SIGNS → lower sign = sign.
Proof.
  intros Hin. pose proof SIGNS_lowercase as Hlow.
  rewrite Forall_forall in Hlow.
  apply lower_case_variant; [apply Hlow, Hin|].
  unfold case_variant. clear. induction sign; constructor; auto.
Qed.

(** A request that is served had a known sign. *)
Lemma get_horoscope_served {S : Type} `{DB : Database S}
    (utcnow : datetime) (req : HoroscopeRequest) (st : S) (resp : HoroscopeResponse) :
  (get_horoscope utcnow req st).1 = Return resp →
  lower (req_sign req) ∈ SIGNS
  ∧ resp_sign resp = lower (req_sign req)
  ∧ resp_scope resp = req_scope req
  ∧ resp_date resp = strftime_Ymd utcnow
  ∧ resp_content resp
    = content (lower (req_sign req)) (req_scope req) (strftime_Ymd utcnow).
Proof.
  destruct (decide (lower (req_sign req) ∈ SIGNS)) as [Hin|Hnot].
  - destruct (get_horoscope_known utcnow req st Hin) as (i & -> & _).
    intros [= <-]. repeat split. exact Hin.
  - rewrite (get_horoscope_unknown utcnow req st Hnot). discriminate.
Qed.
End MoreHoroscopeFacts.

(** X5.  The sign of a response can be sent back: a request made of the
    sign and the scope of any response is served, by any store, with the
    same sign and scope, and on the same date with the same content. *)
Theorem get_horoscope_sign_round_trip
    `{UCD : UnicodeData} {S1 S2 : Type} `{DB1 : Database S1} `{DB2 : Database S2}
    (now1 now2 : datetime) (req : HoroscopeRequest) (st1 : S1) (st2 : S2)
    (resp : HoroscopeResponse) :
  (get_horoscope now1 req st1).1 = Return resp →
  ∃ resp2,
    (get_horoscope now2 (ask (resp_sign resp) (resp_scope resp)) st2).1
    = Return resp2
    ∧ resp_sign resp2 = resp_sign resp
    ∧ resp_scope resp2 = resp_scope resp
    ∧ (strftime_Ymd now2 = resp_date resp →
       resp_content resp2 = resp_content resp).
Proof.
  intros Hserved.
  destruct (get_horoscope_served _ _ _ _ Hserved)
    as (Hin & Hsign & Hscope & Hdate & Hcontent).
  assert (Hagain : lower (req_sign (ask (resp_sign resp) (resp_scope resp)))
                   = lower (req_sign req)).
  { cbn [ask req_sign]. rewrite Hsign. apply lower_sign, Hin. }
  destruct (get_horoscope_known now2 (ask (resp_sign resp) (resp_scope resp)) st2)
    as (i & -> & _); [rewrite Hagain; exact Hin|].
  eexists. split; [reflexivity|].
  cbn [fst resp_sign resp_scope resp_content req_scope ask].
  rewrite Hagain, Hsign, Hscope, Hcontent, Hdate.
  repeat split. intros ->. reflexivity.
Qed.

Lemma get_horoscope_sign_round_trip_witness :
  ∃ resp2,
    (get_horoscope (UCD := ucd_unchanged) new_year_2024_evening
       (ask (py "gemini") (py "Weekly")) down_store).1 = Return resp2
    ∧ resp_sign resp2 = py "gemini"
    ∧ resp_scope resp2 = py "Weekly".
Proof.
  destruct (get_horoscope_sign_round_trip (UCD := ucd_unchanged)
              new_year_2024 new_year_2024_evening
              (ask (py "GEMINI") (py "Weekly")) empty_store down_store
              {| resp_date := py "2024-01-01"; resp_sign := py "gemini";
                 resp_scope := py "Weekly";
                 resp_content :=
                   py "Gemini Weekly Horoscope for 2024-01-01: " ++ body_text;
                 resp_id := Some (py "0") |})
    as (resp2 & Hrun & Hsign & Hscope & _).
  - vm_compute. reflexivity.
  - exists resp2. repeat split; assumption.
Defined.

(** ** GET /api/readings *)

(** What the loop does to one document. *)
Lemma rename_id_lookup (d : dict) :
  rename_id d !! py "_id" = None
  ∧ (∀ k, k ≠ py "_id" → k ≠ py "id" → rename_id d !! k = d !! k)
  ∧ (∀ v, d !! py "_id" = Some v → rename_id d !! py "id" = Some (VStr (py_str v)))
  ∧ (d !! py "_id" = None → rename_id d = d).
Proof.
  unfold rename_id.
  destruct (d !! py "_id") as [v|] eqn:Hid.
  - split; [|split; [|split]].
    + rewrite lookup_insert_ne by (vm_compute; discriminate).
      apply lookup_delete_eq.
    + intros k Hk1 Hk2.
      rewrite lookup_insert_ne by congruence.
      apply lookup_delete_ne. congruence.
    + intros v' [= <-]. apply lookup_insert_eq.
    + discriminate.
  - split; [exact Hid|]. split; [reflexivity|]. split; [discriminate | reflexivity].
Qed.

(** X6.  No item of GET /api/readings has an [_id] key, whatever the
    store returns; running the loop of the handler over the items again
    would change nothing. *)
Theorem list_readings_items_have_no_underscore_id {S : Type} `{DB : Database S}
    (sign : option str) (st : S) :
  ∃ resp, (list_readings sign st).1 = Return resp
          ∧ Forall (λ item, item !! py "_id" = None ∧ rename_id item = item)
              (items resp).
Proof.
  destruct (list_readings_query sign st) as [_ ->].
  eexists. split; [reflexivity|]. cbn [items].
  destruct (get_documents _ _ _ st).1 as [e|docs]; [constructor|].
  apply Forall_fmap, Forall_forall. intros d _. cbn.
  pose proof (rename_id_lookup d) as (Hnone & _).
  split; [exact Hnone|].
  apply (rename_id_lookup (rename_id d)), Hnone.
Qed.

(** X7.  When the store returns documents, GET /api/readings answers
    with one item per document, in the same order.  A document without
    [_id] is passed on as it is; for one with [_id], the item has [id]
    set to [str] of that value (an [id] the document had is replaced),
    and every other field as in the document. *)
Theorem list_readings_items_of_documents {S : Type} `{DB : Database S}
    (sign : option str) (st : S) (docs : list dict) :
  (get_documents (py "reading") (filt sign) 50 st).1 = inr docs →
  ∃ resp,
    (list_readings sign st).1 = Return resp
    ∧ length (items resp) = length docs
    ∧ ∀ (i : nat) (d : dict), docs !! i = Some d →
        ∃ item, items resp !! i = Some item
          ∧ (∀ k, k ≠ py "_id" → k ≠ py "id" → item !! k = d !! k)
          ∧ (∀ v, d !! py "_id" = Some v →
                  item !! py "id" = Some (VStr (py_str v)))
          ∧ (d !! py "_id" = None → item = d).
Proof.
  intros Hdocs.
  destruct (list_readings_query sign st) as [_ ->]. rewrite Hdocs.
  eexists. split; [reflexivity|]. cbn [items].
  split; [apply length_fmap|].
  intros i d Hd. exists (rename_id d).
  split; [rewrite list_lookup_fmap, Hd; reflexivity|].
  apply rename_id_lookup.
Qed.

Lemma list_readings_items_of_documents_witness :
  ∃ resp item,
    (list_readings None two_readings_store).1 = Return resp
    ∧ length (items resp) = 2%nat
    ∧ items resp !! 1%nat = Some item
    ∧ item !! py "id" = Some (VStr (py "1"))
    ∧ item !! py "sign" = Some (VStr (py "virgo")).
Proof.
  destruct (list_readings_items_of_documents None two_readings_store
              [ <[ py "_id" := VObjectId (py "0") ]> (document_of some_reading);
                <[ py "_id" := VObjectId (py "1") ]> (document_of other_reading) ])
    as (resp & Hrun & Hlen & Hitems).
  - vm_compute. reflexivity.
  - destruct (Hitems 1%nat _ eq_refl) as (item & Hitem & Hsame & Hid & _).
    exists resp, item. split; [exact Hrun|]. split; [exact Hlen|].
    split; [exact Hitem|]. split.
    + apply (Hid (VObjectId (py "1"))). vm_compute. reflexivity.
    + rewrite Hsame by (vm_compute; discriminate). vm_compute. reflexivity.
Defined.

(** The in-memory store returns documents that match the filter. *)
Lemma mem_get_documents_matching (collection : str) (flt : dict) (limit : Z)
    (st : MemStore) (docs : list dict) :
  (get_documents collection flt limit st).1 = inr docs →
  Forall (λ d, ∀ k v, flt !! k = Some v → d !! k = Some v) docs.
Proof.
  cbn. unfold mem_get_documents.
  destruct (connected st); cbn; intros Hdocs; [|discriminate].
  injection Hdocs as <-.
  apply Forall_take, Forall_forall. intros d [Hmatch _]%list_elem_of_filter.
  unfold matches in Hmatch. apply bool_decide_eq_true_1 in Hmatch.
  exact Hmatch.
Qed.

(** X8.  With a store that returns only documents having the fields of
    the filter, every item of GET /api/readings?sign=s, for a non-empty
    s, has s as its sign: the renaming of [_id] leaves the sign alone. *)
Theorem list_readings_only_the_sign {S : Type} `{DB : Database S}
    (c : N) (s : str) (st : S) :
  (∀ coll flt n st0 docs,
     (get_documents coll flt n st0).1 = inr docs →
     Forall (λ d, ∀ k v, flt !! k = Some v → d !! k = Some v) docs) →
  ∃ resp, (list_readings (Some (c :: s)) st).1 = Return resp
          ∧ Forall (λ item, item !! py "sign" = Some (VStr (c :: s)))
              (items resp).
Proof.
  intros Hstore.
  destruct (list_readings_query (Some (c :: s)) st) as [_ ->].
  eexists. split; [reflexivity|]. cbn [items].
  destruct (get_documents _ _ _ st).1 as [e|docs] eqn:Hdocs; [constructor|].
  apply Forall_fmap. specialize (Hstore _ _ _ _ _ Hdocs).
  eapply Forall_impl; [exact Hstore|].
  intros d Hd. cbn.
  destruct (rename_id_lookup d) as (_ & Hsame & _).
  rewrite Hsame by (vm_compute; discriminate).
  apply Hd. apply lookup_singleton_eq.
Qed.

Lemma list_readings_only_the_sign_witness :
  ∃ resp, (list_readings (Some (py "virgo")) two_readings_store).1 = Return resp
          ∧ Forall (λ item, item !! py "sign" = Some (VStr (py "virgo")))
              (items resp)
          ∧ length (items resp) = 1%nat.
Proof.
  destruct (list_readings_only_the_sign 118%N (py "irgo") two_readings_store
              mem_get_documents_matching) as (resp & Hrun & Hsign).
  exists resp. split; [exact Hrun|]. split; [exact Hsign|].
  change (Some (118%N :: py "irgo")) with (Some (py "virgo")) in Hrun.
  assert (Hlen : length <$> (items <$> (list_readings (Some (py "virgo"))
                                          two_readings_store).1)
                 = Return 1%nat) by (vm_compute; reflexivity).
  rewrite Hrun in Hlen. injection Hlen as Hlen. exact Hlen.
Defined.

(** ** The handlers over the in-memory store *)

Section OverTheMemStore.
Context `{UCD : UnicodeData}.

(** Documents of the service do not match a filter on a sign that is not
    one of the twelve. *)
Lemma filter_unknown_sign (sign : str) (docs : list dict) :
  sign ∉ SIGNS →
  Forall document_ok docs →
  filter (λ d, matches {[ py "sign" := VStr sign ]} d = true) docs = [].
Proof.
  intros Hnot. induction 1 as [|d docs Hd _ IH]; [reflexivity|].
  rewrite filter_cons_False; [exact IH|].
  intros Hmatch. unfold matches in Hmatch.
  apply bool_decide_eq_true_1 in Hmatch.
  apply map_Forall_singleton in Hmatch.
  destruct Hd as (sign' & text & Hsign & Hin & _).
  rewrite Hsign in Hmatch. injection Hmatch as ->. exact (Hnot Hin).
Qed.

(** X9.  The sign of a reading is stored in lower case, and GET
    /api/readings filters on the sign as given: whatever was posted to
    the in-memory store since it was empty, a non-empty [sign] that is
    not one of the twelve labels, such as "Leo", lists nothing. *)
Theorem list_readings_filter_is_case_sensitive
    (history : list event) (c : N) (s : str) :
  (c :: s) ∉ SIGNS →
  (list_readings (Some (c :: s)) (foldl after empty_store history)).1
  = Return {| items := [] |}.
Proof.
  intros Hnot.
  pose proof (stored_readings_ok history) as Hok.
  destruct (list_readings_query (Some (c :: s)) (foldl after empty_store history))
    as [_ ->].
  cbn [get_documents mem_database]. unfold mem_get_documents.
  destruct (connected _); [|reflexivity].
  cbn [fst filt]. fold (stored_readings (foldl after empty_store history)).
  rewrite (filter_unknown_sign _ _ Hnot Hok). rewrite take_nil. reflexivity.
Qed.

(** Creating a reading in a store that is up, then asking for its sign. *)
Lemma mem_create_then_get (r : Reading) (st : MemStore) (c : N) (s : str) :
  connected st = true →
  reading_sign r = c :: s →
  (length (filter (λ d, matches (filt (Some (c :: s))) d = true)
             (stored_readings st)) < 50)%nat →
  (mem_create_document (py "reading") r st).1 = inr (py (pretty (next_id st)))
  ∧ ∃ docs,
      (mem_get_documents (py "reading") (filt (Some (c :: s))) 50
         (mem_create_document (py "reading") r st).2).1 = inr docs
      ∧ <[ py "_id" := VObjectId (py (pretty (next_id st))) ]> (document_of r)
        ∈ docs.
Proof.
  intros Hup Hsign Hfew. unfold mem_create_document. rewrite Hup.
  split; [reflexivity|].
  unfold mem_get_documents. cbn [snd fst connected collections].
  eexists. split; [reflexivity|].
  rewrite lookup_insert_eq. cbn [default from_option id].
  fold (stored_readings st). rewrite filter_app.
  rewrite take_ge.
  - apply elem_of_app. right.
    rewrite filter_cons_True; [apply list_elem_of_here|].
    unfold matches. apply bool_decide_eq_true_2. cbn [filt].
    apply map_Forall_singleton.
    rewrite lookup_insert_ne by (vm_compute; discriminate).
    unfold document_of. rewrite lookup_insert_eq, Hsign. reflexivity.
  - rewrite length_app.
    pose proof (length_filter
                  (λ d, matches (filt (Some (c :: s))) d = true)
                  [ <[ py "_id" := VObjectId (py (pretty (next_id st))) ]>
                      (document_of r) ]) as Hone.
    cbn [length] in Hone. lia.
Qed.
End OverTheMemStore.

Lemma list_readings_filter_is_case_sensitive_witness :
  (list_readings (Some (py "Leo"))
     (foldl (after (UCD := ucd_unchanged)) empty_store
        [PostHoroscope new_year_2024 (ask (py "Leo") (py "daily"))])).1
  = Return {| items := [] |}
  ∧ length <$> (items <$>
      (list_readings (Some (py "leo"))
         (foldl (after (UCD := ucd_unchanged)) empty_store
            [PostHoroscope new_year_2024 (ask (py "Leo") (py "daily"))])).1)
    = Return 1%nat.
Proof.
  split.
  - apply (list_readings_filter_is_case_sensitive (UCD := ucd_unchanged)
             [PostHoroscope new_year_2024 (ask (py "Leo") (py "daily"))]
             76%N (py "eo")).
    apply (bool_decide_eq_false_1 _). vm_compute. reflexivity.
  - vm_compute. reflexivity.
Defined.

(** X10.  POST then GET, over the in-memory store: when the store is up,
    a served POST /api/horoscope returns the id of the new reading, and a
    GET /api/readings for the sign of the response, made next, lists that
    reading - its sign, date and content, with the id under [id] -
    provided fewer than 50 readings of that sign were stored before. *)
Theorem post_horoscope_then_get_readings `{UCD : UnicodeData}
    (utcnow : datetime) (req : HoroscopeRequest) (st : MemStore)
    (resp : HoroscopeResponse) :
  connected st = true →
  (get_horoscope utcnow req st).1 = Return resp →
  (length (filter (λ d, matches (filt (Some (resp_sign resp))) d = true)
             (stored_readings st)) < 50)%nat →
  ∃ new_id listing,
    resp_id resp = Some new_id
    ∧ (list_readings (Some (resp_sign resp)) (get_horoscope utcnow req st).2).1
      = Return listing
    ∧ <[ py "id" := VStr new_id ]> (document_of (reading_of resp))
      ∈ items listing.
Proof.
  intros Hup Hserved Hfew.
  destruct (get_horoscope_served _ _ _ _ Hserved) as (Hin & Hsign & _).
  destruct (title_sign _ Hin) as (c & s & Hcs & _).
  destruct (get_horoscope_known utcnow req st Hin) as (i & Hrun & Hi).
  rewrite Hrun in Hserved |- *. cbn [fst snd] in *.
  injection Hserved as <-.
  cbn [resp_sign resp_id reading_of resp_date resp_content] in *.
  cbn [create_document mem_database] in *.
  rewrite Hcs in Hfew, Hi |- *.
  set (r := {| reading_sign := c :: s; reading_date := strftime_Ymd utcnow;
               reading_content :=
                 content (c :: s) (req_scope req) (strftime_Ymd utcnow) |}) in *.
  destruct (mem_create_then_get r st c s Hup eq_refl Hfew)
    as (Hcreated & docs & Hdocs & Hdoc).
  rewrite Hcreated in Hi.
  exists (py (pretty (next_id st))).
  destruct (list_readings_query (Some (c :: s))
              (mem_create_document (py "reading") r st).2) as [_ ->].
  cbn [get_documents mem_database]. rewrite Hdocs.
  eexists. split; [exact Hi|]. split; [reflexivity|]. cbn [items].
  apply list_elem_of_fmap.
  exists (<[ py "_id" := VObjectId (py (pretty (next_id st))) ]> (document_of r)).
  split; [|exact Hdoc].
  unfold rename_id. rewrite lookup_insert_eq. cbn [py_str].
  rewrite delete_insert_id; [reflexivity|].
  unfold document_of.
  do 2 (rewrite lookup_insert_ne by (vm_compute; discriminate)).
  apply lookup_singleton_ne. vm_compute. discriminate.
Qed.

Lemma post_horoscope_then_get_readings_witness :
  ∃ listing,
    (list_readings (Some (py "aries"))
       (get_horoscope (UCD := ucd_unchanged) new_year_2024
          (ask (py "Aries") (py "daily")) two_readings_store).2).1
    = Return listing
    ∧ <[ py "id" := VStr (py "2") ]>
        (document_of
           {| reading_sign := py "aries"; reading_date := py "2024-01-01";
              reading_content :=
                py "Aries Daily Horoscope for 2024-01-01: " ++ body_text |})
      ∈ items listing.
Proof.
  destruct (post_horoscope_then_get_readings (UCD := ucd_unchanged)
              new_year_2024 (ask (py "Aries") (py "daily")) two_readings_store
              {| resp_date := py "2024-01-01"; resp_sign := py "aries";
                 resp_scope := py "daily";
                 resp_content :=
                   py "Aries Daily Horoscope for 2024-01-01: " ++ body_text;
                 resp_id := Some (py "2") |})
    as (new_id & listing & Hid & Hrun & Hitem).
  - reflexivity.
  - vm_compute. reflexivity.
  - vm_compute. lia.
  - exists listing. split; [exact Hrun|].
    injection Hid as <-. exact Hitem.
Defined.

(** ** GET /test *)

(** X11.  The [database_url] and [database_name] of the diagnostic say
    only whether the environment variables [DATABASE_URL] and
    [DATABASE_NAME] are set to a non-empty string: they do not depend on
    [db], and neither the name of the database nor "Configured" is ever
    reported. *)
Theorem test_database_reports_environment (db1 db2 : option Handle)
    (env : gmap str str) :
  t_database_url (test_database db1 env) = t_database_url (test_database db2 env)
  ∧ t_database_name (test_database db1 env)
    = t_database_name (test_database db2 env)
  ∧ (t_database_url (test_database db1 env) = Some (check_mark ++ py " Set")
     ↔ ∃ c v, env !! py "DATABASE_URL" = Some (c :: v))
  ∧ (t_database_url (test_database db1 env) = Some (cross_mark ++ py " Not Set")
     ↔ env !! py "DATABASE_URL" = None ∨ env !! py "DATABASE_URL" = Some [])
  ∧ (t_database_name (test_database db1 env) = Some (check_mark ++ py " Set")
     ↔ ∃ c v, env !! py "DATABASE_NAME" = Some (c :: v))
  ∧ (t_database_name (test_database db1 env) = Some (cross_mark ++ py " Not Set")
     ↔ env !! py "DATABASE_NAME" = None ∨ env !! py "DATABASE_NAME" = Some []).
Proof.
  assert (Hurl : ∀ db, t_database_url (test_database db env)
                 = Some (if truthy (getenv env (py "DATABASE_URL"))
                         then check_mark ++ py " Set"
                         else cross_mark ++ py " Not Set")) by reflexivity.
  assert (Hname : ∀ db, t_database_name (test_database db env)
                  = Some (if truthy (getenv env (py "DATABASE_NAME"))
                          then check_mark ++ py " Set"
                          else cross_mark ++ py " Not Set")) by reflexivity.
  rewrite !Hurl, !Hname. unfold getenv.
  split; [reflexivity|]. split; [reflexivity|].
  destruct (env !! py "DATABASE_URL") as [[|c v]|];
    destruct (env !! py "DATABASE_NAME") as [[|c' v']|]; cbn [truthy];
    repeat split;
    first [ discriminate
          | intros [? [? [=]]]
          | intros [[=]|[=]]
          | eauto ].
Qed.

Lemma test_database_reports_environment_witness :
  t_database_url
    (test_database (Some full_handle)
       {[ py "DATABASE_URL" := py "mongodb://localhost:27017";
          py "DATABASE_NAME" := [] ]})
  = Some (check_mark ++ py " Set")
  ∧ t_database_name
      (test_database (Some full_handle)
         {[ py "DATABASE_URL" := py "mongodb://localhost:27017";
            py "DATABASE_NAME" := [] ]})
    = Some (cross_mark ++ py " Not Set").
Proof.
  split.
  - apply (proj2 (proj1 (proj2 (proj2
             (test_database_reports_environment (Some full_handle) None _))))).
    eexists _, _. vm_compute. reflexivity.
  - apply (proj2 (proj2 (proj2 (proj2 (proj2 (proj2
             (test_database_reports_environment (Some full_handle) None _))))))).
    right. vm_compute. reflexivity.
Defined.

(** The outcome of the diagnostic, path by path. *)
Lemma test_database_paths (db : option Handle) (env : gmap str str) :
  (db = None
   ∧ t_database (test_database db env)
     = warning_sign ++ py "  Available but not initialized"
   ∧ t_connection_status (test_database db env) = py "Not Connected"
   ∧ t_collections (test_database db env) = [])
  ∨ (∃ handle e, db = Some handle ∧ handle_name handle = Some (inl e)
     ∧ t_database (test_database db env) = cross_mark ++ py " Error: " ++ take 50 e
     ∧ t_connection_status (test_database db env) = py "Not Connected"
     ∧ t_collections (test_database db env) = [])
  ∨ (∃ handle e, db = Some handle ∧ name_readable handle
     ∧ handle_list_collection_names handle = inl e
     ∧ t_database (test_database db env)
       = warning_sign ++ py "  Connected but Error: " ++ take 50 e
     ∧ t_connection_status (test_database db env) = py "Connected"
     ∧ t_collections (test_database db env) = [])
  ∨ (∃ handle names, db = Some handle ∧ name_readable handle
     ∧ handle_list_collection_names handle = inr names
     ∧ t_database (test_database db env) = check_mark ++ py " Connected & Working"
     ∧ t_connection_status (test_database db env) = py "Connected"
     ∧ t_collections (test_database db env) = take 10 names).
Proof.
  destruct db as [[[[e|db_name]|] [e'|names]]|]; unfold test_database;
    cbn [handle_name handle_list_collection_names].
  - right; left. eexists _, e. repeat split.
  - right; left. eexists _, e. repeat split.
  - right; right; left. eexists _, e'.
    split; [reflexivity|]. split; [intros ? [=]|]. repeat split.
  - right; right; right. eexists _, names.
    split; [reflexivity|]. split; [intros ? [=]|]. repeat split.
  - right; right; left. eexists _, e'.
    split; [reflexivity|]. split; [intros ? [=]|]. repeat split.
  - right; right; right. eexists _, names.
    split; [reflexivity|]. split; [intros ? [=]|]. repeat split.
  - left. repeat split.
Qed.

(** X12.  The diagnostic reports "Connected & Working" exactly when [db]
    is set, its name can be read and its collections can be listed, and
    "Connected" exactly when [db] is set and its name can be read;
    collections are listed only in the first case, and the "Not
    Available" the response starts with is never what is returned. *)
Theorem test_database_verdict (db : option Handle) (env : gmap str str) :
  (t_database (test_database db env) = check_mark ++ py " Connected & Working"
   ↔ ∃ handle names, db = Some handle ∧ name_readable handle
                     ∧ handle_list_collection_names handle = inr names)
  ∧ (t_connection_status (test_database db env) = py "Connected"
     ↔ ∃ handle, db = Some handle ∧ name_readable handle)
  ∧ (t_collections (test_database db env) ≠ [] →
     t_database (test_database db env) = check_mark ++ py " Connected & Working")
  ∧ t_database (test_database db env) ≠ cross_mark ++ py " Not Available".
Proof.
  destruct (test_database_paths db env)
    as [(-> & -> & -> & ->)
       |[(handle & e & -> & Hname & -> & -> & ->)
        |[(handle & e & -> & Hname & Hlist & -> & -> & ->)
         |(handle & names & -> & Hname & Hlist & -> & -> & ->)]]].
  - split; [split; [intros H; vm_compute in H; discriminate H
                   | intros (? & ? & [=] & _)]|].
    split; [split; [intros H; vm_compute in H; discriminate H
                   | intros (? & [=] & _)]|].
    split; [intros H; destruct (H eq_refl)|].
    intros H; vm_compute in H; discriminate H.
  - split; [split; [intros H; vm_compute in H; discriminate H
                   | intros (? & ? & [= <-] & Hr & _); destruct (Hr e Hname)]|].
    split; [split; [intros H; vm_compute in H; discriminate H
                   | intros (? & [= <-] & Hr); destruct (Hr e Hname)]|].
    split; [intros H; destruct (H eq_refl)|].
    intros H; vm_compute in H; discriminate H.
  - split; [split; [intros H; vm_compute in H; discriminate H
                   | intros (? & ? & [= <-] & _ & Hl); congruence]|].
    split; [split; [eauto | reflexivity]|].
    split; [intros H; destruct (H eq_refl)|].
    intros H; vm_compute in H; discriminate H.
  - split; [split; [eauto | reflexivity]|].
    split; [split; [eauto | reflexivity]|].
    split; [reflexivity|].
    intros H; vm_compute in H; discriminate H.
Qed.

Lemma test_database_verdict_witness :
  t_database (test_database (Some full_handle) ∅)
  = check_mark ++ py " Connected & Working"
  ∧ t_connection_status (test_database (Some failing_handle) ∅) = py "Connected".
Proof.
  split.
  - apply (proj2 (proj1 (test_database_verdict (Some full_handle) ∅))).
    eexists _, _. split; [reflexivity|]. split; [intros e [=] | reflexivity].
  - apply (proj2 (proj1 (proj2 (test_database_verdict (Some failing_handle) ∅)))).
    eexists. split; [reflexivity | intros e [=]].
Defined.

(** X13.  Bounds of the diagnostic: at most ten collections are listed,
    the first ten the store names, in its order; and the verdict is at
    most 75 characters long, an exception contributing at most the first
    50 characters of its text. *)
Theorem test_database_bounds (db : option Handle) (env : gmap str str) :
  (length (t_collections (test_database db env)) ≤ 10)%nat
  ∧ (∀ handle names, db = Some handle →
       handle_list_collection_names handle = inr names →
       t_collections (test_database db env) `prefix_of` names)
  ∧ (length (t_database (test_database db env)) ≤ 75)%nat
  ∧ (∀ handle e, db = Some handle → name_readable handle →
       handle_list_collection_names handle = inl e →
       t_database (test_database db env)
       = warning_sign ++ py "  Connected but Error: " ++ take 50 e).
Proof.
  destruct (test_database_paths db env)
    as [(-> & -> & _ & ->)
       |[(handle & e & -> & Hname & -> & _ & ->)
        |[(handle & e & -> & Hname & Hlist & -> & _ & ->)
         |(handle & names & -> & Hname & Hlist & -> & _ & ->)]]].
  - split; [cbn; lia|]. split; [intros ? ? [=]|].
    split; [vm_compute; lia | intros ? ? [=]].
  - split; [cbn; lia|]. split; [intros ? ? _ _; apply prefix_nil|].
    split; [|intros ? e' [= <-] Hr; destruct (Hr e Hname)].
    rewrite !length_app, length_take.
    change (length cross_mark) with 1%nat. change (length (py " Error: ")) with 8%nat.
    lia.
  - split; [cbn; lia|]. split; [intros ? ? _ _; apply prefix_nil|].
    split; [|intros ? e' [= <-] _ He; congruence].
    rewrite !length_app, length_take.
    change (length warning_sign) with 2%nat.
    change (length (py "  Connected but Error: ")) with 23%nat.
    lia.
  - split; [rewrite length_take; lia|].
    split; [intros ? names' [= <-] Hl; assert (names' = names) as -> by congruence;
            apply prefix_take|].
    split; [vm_compute; lia | intros ? e [= <-] _ He; congruence].
Qed.

Lemma test_database_bounds_witness :
  t_database (test_database (Some failing_handle) ∅)
  = warning_sign
    ++ py "  Connected but Error: ServerSelectionTimeoutError: localhost:27017: conn"
  ∧ length (t_collections (test_database (Some full_handle) ∅)) = 10%nat
  ∧ t_collections (test_database (Some full_handle) ∅)
    `prefix_of` map (λ n : nat, py "c" ++ py (pretty n)) (seq 0 12).
Proof.
  split; [|split].
  - rewrite (proj2 (proj2 (proj2 (test_database_bounds (Some failing_handle) ∅)))
               failing_handle _ eq_refl (λ e H, ltac:(discriminate H)) eq_refl).
    vm_compute. reflexivity.
  - vm_compute. reflexivity.
  - exact (proj1 (proj2 (test_database_bounds (Some full_handle) ∅))
             full_handle _ eq_refl eq_refl).
Defined.
